(** * bekuto3d: the shape list, its visible view and the selection state
      of [SvgTo3D.vue], the document check, the raster fallback document
      and the bore subtraction of [useCsg.ts].

    The component is embedded as explicit state passing over a record of
    its refs.  Shape records are JavaScript objects: they live in a store
    and the shape list holds references to them, so that the identity
    searches of [toShownIndex] and [toSvgIndex] compare references.
    JavaScript numbers are binary64 floats; array indices are integers. *)

From Stdlib Require Import ZArith List Bool Lia Floats String Ascii.
From Stdlib Require Import DecimalString.
Import ListNotations.

Local Open Scope Z_scope.
#[local] Set Warnings "-inexact-float".

(* ================================================================== *)
(** ** JavaScript values used by the component *)

Module JS.

(** Truthiness of a number: [0], [-0] and [NaN] are falsy. *)
Definition truthy (d : float) : bool :=
  negb (PrimFloat.is_nan d || PrimFloat.eqb d PrimFloat.zero).

(** [arr[i]]: [undefined] (here [None]) outside the array. *)
Definition at_index {A : Type} (l : list A) (i : Z) : option A :=
  if i <? 0 then None else nth_error l (Z.to_nat i).

(** [arr.findIndex(p)]: the first position whose element satisfies [p],
    [-1] when there is none. *)
Fixpoint findIndexFrom {A : Type} (p : A -> bool) (l : list A) (i : Z) : Z :=
  match l with
  | [] => -1
  | x :: t => if p x then i else findIndexFrom p t (i + 1)
  end.

Definition findIndex {A : Type} (p : A -> bool) (l : list A) : Z :=
  findIndexFrom p l 0.

End JS.

(* ================================================================== *)
(** ** Shape records, the object store and the component state *)

(** Identity of a shape object: two positions of the shape list hold the
    same object exactly when they hold the same reference. *)
Definition ref := nat.

(** Modelled from the spec: the type [ShapeWithColor] of
    [types/three-types] is not among the sources; the record has the
    fields the component reads and writes: the color (packed RGB), the
    extrusion depth and the start offset. *)
Record ShapeWithColor := mkShape {
  color : Z;
  depth : float;
  startZ : float
}.

(** A callback handed to [nextTick], with the number of ticks left
    before it runs: [mountSVG] resets the scale target inside a
    [nextTick] that awaits one more [nextTick]. *)
Inductive Callback :=
| SetSize (v : float).

Record State := mkState {
  store : ref -> ShapeWithColor;     (* the objects, by reference *)
  nextRef : ref;                     (* the first unused reference *)
  fileName : string;
  svgShapes : list ref;
  selectedShapeIndex : option Z;
  editingInputIndex : option Z;
  isExporting : bool;
  isDefaultSvg : bool;
  svgCode : string;
  size : float;
  pending : list (nat * Callback)
}.

Definition defaultDepth : float := 2%float.
Definition defaultSize : float := 37%float.
Definition defaultSvgOffsetList : list float := [0%float; 2.1%float].
Definition defaultSvgDepthList : list float :=
  [2.1%float; 0%float; 1%float; 1%float; 1%float; 2%float; 1%float;
   1.4%float; 1.6%float].

(** The component as it is set up: every ref at its initial value. *)
Definition initial : State :=
  {| store := fun _ => mkShape 0 PrimFloat.zero PrimFloat.zero;
     nextRef := 0%nat;
     fileName := EmptyString;
     svgShapes := [];
     selectedShapeIndex := None;
     editingInputIndex := None;
     isExporting := false;
     isDefaultSvg := false;
     svgCode := EmptyString;
     size := defaultSize;
     pending := [] |}.

Section Updates.

Variable st : State.

Definition with_store (h : ref -> ShapeWithColor) (n : ref) : State :=
  mkState h n (fileName st) (svgShapes st) (selectedShapeIndex st)
    (editingInputIndex st) (isExporting st) (isDefaultSvg st) (svgCode st)
    (size st) (pending st).

Definition with_fileName (s : string) : State :=
  mkState (store st) (nextRef st) s (svgShapes st) (selectedShapeIndex st)
    (editingInputIndex st) (isExporting st) (isDefaultSvg st) (svgCode st)
    (size st) (pending st).

Definition with_svgShapes (l : list ref) : State :=
  mkState (store st) (nextRef st) (fileName st) l (selectedShapeIndex st)
    (editingInputIndex st) (isExporting st) (isDefaultSvg st) (svgCode st)
    (size st) (pending st).

Definition with_selectedShapeIndex (i : option Z) : State :=
  mkState (store st) (nextRef st) (fileName st) (svgShapes st) i
    (editingInputIndex st) (isExporting st) (isDefaultSvg st) (svgCode st)
    (size st) (pending st).

Definition with_editingInputIndex (i : option Z) : State :=
  mkState (store st) (nextRef st) (fileName st) (svgShapes st)
    (selectedShapeIndex st) i (isExporting st) (isDefaultSvg st) (svgCode st)
    (size st) (pending st).

Definition with_isExporting (b : bool) : State :=
  mkState (store st) (nextRef st) (fileName st) (svgShapes st)
    (selectedShapeIndex st) (editingInputIndex st) b (isDefaultSvg st)
    (svgCode st) (size st) (pending st).

Definition with_isDefaultSvg (b : bool) : State :=
  mkState (store st) (nextRef st) (fileName st) (svgShapes st)
    (selectedShapeIndex st) (editingInputIndex st) (isExporting st) b
    (svgCode st) (size st) (pending st).

Definition with_svgCode (s : string) : State :=
  mkState (store st) (nextRef st) (fileName st) (svgShapes st)
    (selectedShapeIndex st) (editingInputIndex st) (isExporting st)
    (isDefaultSvg st) s (size st) (pending st).

Definition with_size (v : float) : State :=
  mkState (store st) (nextRef st) (fileName st) (svgShapes st)
    (selectedShapeIndex st) (editingInputIndex st) (isExporting st)
    (isDefaultSvg st) (svgCode st) v (pending st).

Definition with_pending (q : list (nat * Callback)) : State :=
  mkState (store st) (nextRef st) (fileName st) (svgShapes st)
    (selectedShapeIndex st) (editingInputIndex st) (isExporting st)
    (isDefaultSvg st) (svgCode st) (size st) q.

End Updates.

(* ================================================================== *)
(** ** The visible view and the two index conversions *)

(** [s === x] where [x] is an array read: no object is [undefined]. *)
Definition strictEq (s : ref) (x : option ref) : bool :=
  match x with
  | Some r => Nat.eqb s r
  | None => false
  end.

Definition depthOf (st : State) (r : ref) : float := depth (store st r).

(** [shownShapes = computed(() => svgShapes.value.filter(i => i.depth))] *)
Definition shownShapes (st : State) : list ref :=
  filter (fun i => JS.truthy (depthOf st i)) (svgShapes st).

Definition toShownIndex (st : State) (index : Z) : Z :=
  JS.findIndex (fun s => strictEq s (JS.at_index (svgShapes st) index))
    (shownShapes st).

Definition toSvgIndex (st : State) (index : Z) : Z :=
  JS.findIndex (fun s => strictEq s (JS.at_index (shownShapes st) index))
    (svgShapes st).

Definition formatSelectedShapeIndex (st : State) (index : option Z)
  : option Z :=
  match index with
  | None => None
  | Some i =>
      let newIndex := toShownIndex st i in
      if newIndex =? -1 then None else Some newIndex
  end.

(** The getter and the setter of the computed [selectedShownShapeIndex]. *)
Definition selectedShownShapeIndex_get (st : State) : option Z :=
  if isExporting st then None
  else match editingInputIndex st with
       | Some e => formatSelectedShapeIndex st (Some e)
       | None => formatSelectedShapeIndex st (selectedShapeIndex st)
       end.

Definition selectedShownShapeIndex_set (st : State) (index : Z) : State :=
  if isDefaultSvg st || isExporting st then st
  else
    let newIndex := toSvgIndex st index in
    with_selectedShapeIndex st (Some newIndex).

(** [handleMeshClick]: behind the same guard it resolves the clicked
    visible index to a row of the list and asks, on the next tick, for
    the focus of that row's input; the result is the row asked for. *)
Definition handleMeshClick (st : State) (index : Z) : option Z :=
  if isDefaultSvg st || isExporting st then None
  else Some (toSvgIndex st index).

(** The row handlers of the template: hover and focus. *)
Definition mouseenter (st : State) (index : Z) : State :=
  with_selectedShapeIndex st (Some index).
Definition mouseleave (st : State) : State :=
  with_selectedShapeIndex st None.
Definition focus (st : State) (index : Z) : State :=
  with_editingInputIndex st (Some index).
Definition blur (st : State) : State :=
  with_editingInputIndex st None.


(* ================================================================== *)
(** ** Strings: the operations [isValidSvg] and the raster fallback use *)

(** Text is a sequence of code units below 256 (Latin-1). *)
Module JSString.

(** White space and line terminators that [trim] removes. *)
Definition isWhiteSpace (c : ascii) : bool :=
  let n := N_of_ascii c in
  ((9 <=? n) && (n <=? 13) || (n =? 32) || (n =? 160))%N.

Fixpoint trimStart (s : string) : string :=
  match s with
  | EmptyString => EmptyString
  | String c t => if isWhiteSpace c then trimStart t else s
  end.

Fixpoint trimEnd (s : string) : string :=
  match s with
  | EmptyString => EmptyString
  | String c t =>
      match trimEnd t with
      | EmptyString => if isWhiteSpace c then EmptyString
                       else String c EmptyString
      | t' => String c t'
      end
  end.

Definition trim (s : string) : string := trimEnd (trimStart s).

Definition lowerChar (c : ascii) : ascii :=
  let n := N_of_ascii c in
  if ((65 <=? n) && (n <=? 90)
      || (192 <=? n) && (n <=? 222) && negb (n =? 215))%N
  then ascii_of_N (n + 32) else c.

Fixpoint toLowerCase (s : string) : string :=
  match s with
  | EmptyString => EmptyString
  | String c t => String (lowerChar c) (toLowerCase t)
  end.

(** [s.indexOf(needle)]: the first position of [needle], or [-1]. *)
Definition indexOf (s needle : string) : Z :=
  match String.index 0 needle s with
  | Some i => Z.of_nat i
  | None => -1
  end.

Definition includes (s needle : string) : bool :=
  match String.index 0 needle s with
  | Some _ => true
  | None => false
  end.

(** Decimal text of a natural number, as a template literal prints an
    integer below [2^53]. *)
Definition ofNumber (n : N) : string := NilZero.string_of_uint (N.to_uint n).

Definition dquote : string := String "034"%char EmptyString.
Definition newline : string := String "010"%char EmptyString.

End JSString.

(* ================================================================== *)
(** ** [isValidSvg] *)

Definition isValidSvg (code : string) : bool :=
  if (String.length code =? 0)%nat || String.eqb (JSString.trim code) EmptyString
  then false
  else
    let lowerCode := JSString.toLowerCase code in
    let svgStart := JSString.indexOf lowerCode "<svg" in
    let svgEnd := JSString.indexOf lowerCode "</svg>" in
    negb (svgStart =? -1)
    && negb (svgEnd =? -1)
    && (svgStart <? svgEnd)
    && (JSString.includes lowerCode "viewbox"
        || JSString.includes lowerCode "width"
        || JSString.includes lowerCode "height").

(* ================================================================== *)
(** ** Loading and closing a document *)

Record LoaderOptions := mkOptions {
  opt_defaultDepth : float;
  opt_defaultStartZ : float;
  opt_customShapes : option (list ShapeWithColor -> Z -> list ShapeWithColor)
}.

(** The objects a loader call creates are new: they take the unused
    references from [nextRef] on. *)
Definition allocate (st : State) (objs : list ShapeWithColor)
  : State * list ref :=
  let n := nextRef st in
  (with_store st
     (fun r => if (n <=? r)%nat then nth (r - n) objs (store st r)
               else store st r)
     (n + List.length objs)%nat,
   seq n (List.length objs)).

Definition runCallback (cb : Callback) (st : State) : State :=
  match cb with
  | SetSize v => with_size st v
  end.

(** One tick: the callbacks that are due run, the others wait one tick
    less. *)
Definition tick (st : State) : State :=
  let due := filter (fun d => (fst d <=? 1)%nat) (pending st) in
  let later :=
    map (fun d => (Nat.pred (fst d), snd d))
        (filter (fun d => negb (fst d <=? 1)%nat) (pending st)) in
  fold_left (fun s d => runCallback (snd d) s) due (with_pending st later).

(** [a ?? b] *)
Definition nullish {A : Type} (a : option A) (b : A) : A :=
  match a with
  | Some x => x
  | None => b
  end.

(** The callback [loadDefaultSvg] passes as [customShapes]. *)
Definition defaultCustomShapes (shapes : list ShapeWithColor) (_ : Z)
  : list ShapeWithColor :=
  map (fun p : nat * ShapeWithColor =>
         let index := Z.of_nat (fst p) in
         let item := snd p in
         mkShape (color item)
           (nullish (JS.at_index defaultSvgDepthList index) 2%float)
           (nullish (JS.at_index defaultSvgOffsetList index)
              (nullish (JS.at_index defaultSvgOffsetList
                          (Z.of_nat (List.length defaultSvgOffsetList) - 1))
                 0%float)))
      (combine (seq 0 (List.length shapes)) shapes).

Section Loader.

(** [useSvgLoader] is not among the sources: [createShapesWithColor] is
    taken as given, as the contents of the shape objects it creates. *)
Variable createShapesWithColor : string -> LoaderOptions -> list ShapeWithColor.

Definition mountSVG (st : State) (svgData : string)
    (customShapes : option (list ShapeWithColor -> Z -> list ShapeWithColor))
  : State :=
  let st1 := with_isDefaultSvg st false in
  let created :=
    createShapesWithColor svgData
      (mkOptions defaultDepth 0%float customShapes) in
  let st2 := with_svgShapes (fst (allocate st1 created))
                            (snd (allocate st1 created)) in
  with_pending st2 (pending st2 ++ [(2%nat, SetSize defaultSize)]).

(** [loadDefaultSvg], resumed with what the fetch gave: [None] when it
    failed (the error is logged and nothing changes). *)
Definition loadDefaultSvg (st : State) (response : option string) : State :=
  match response with
  | None => st
  | Some svgData =>
      let st1 := with_fileName st EmptyString in
      let st2 := mountSVG st1 svgData (Some defaultCustomShapes) in
      with_isDefaultSvg st2 true
  end.

(** [handleClose] up to the call of [loadDefaultSvg]. *)
Definition handleClose_reset (st : State) : State :=
  let st1 := with_fileName st EmptyString in
  let st2 := with_svgShapes st1 [] in
  let st3 := with_svgCode st2 EmptyString in
  let st4 := with_selectedShapeIndex st3 None in
  let st5 := with_editingInputIndex st4 None in
  let st6 := with_isExporting st5 false in
  with_size st6 defaultSize.

Definition handleClose (st : State) (response : option string) : State :=
  loadDefaultSvg (handleClose_reset st) response.

Definition pasteSvg (st : State) (paste : option string) : State * bool :=
  match paste with
  | Some text =>
      if negb (String.length text =? 0)%nat && isValidSvg text
      then (mountSVG (with_fileName st "Pasted file") text None, true)
      else (st, false)
  | None => (st, false)
  end.

Definition handleInputSvgCode (st : State) : State :=
  with_svgCode (fst (pasteSvg st (Some (svgCode st)))) EmptyString.

End Loader.

Definition isLoaded (st : State) : bool :=
  negb (List.length (svgShapes st) =? 0)%nat && negb (isDefaultSvg st).

(* ================================================================== *)
(** ** The number inputs of a row *)

(** The [min], [max] and [step] a row passes to an [IconInput]. *)
Record NumberInput := mkInput {
  min : float;
  max : float;
  step : float
}.

Definition startZInput : NumberInput := mkInput (-10)%float 10%float 0.1%float.
Definition depthInput : NumberInput := mkInput 0%float 10%float 0.1%float.

(** The integer nearest to a number, halves away from zero; [0] for
    what is no finite number. *)
Definition nearestInteger (x : float) : Z :=
  match Prim2SF x with
  | S754_finite s m e =>
      let n := if 0 <=? e then Z.pos m * 2 ^ e
               else (2 * Z.pos m + 2 ^ (- e)) / (2 * 2 ^ (- e)) in
      if s then - n else n
  | _ => 0
  end.

(** The number an integer is (rounded to binary64). *)
Definition ofInteger (k : Z) : float :=
  SF2Prim (binary_normalize prec emax k 0 false).

(** Modelled from the spec: [IconInput.vue] is not among the sources.
    The values an input can hold are the multiples [k * step] of its
    step, for the integers [k] from [min / step] to [max / step]. *)
Definition gridPoint (p : NumberInput) (k : Z) : float :=
  PrimFloat.mul (ofInteger k) (step p).

(** Modelled from the spec: the step counts of the first and of the
    last value of the grid, [min / step] and [max / step]. *)
Definition lowStep (p : NumberInput) : Z :=
  nearestInteger (PrimFloat.div (min p) (step p)).

Definition highStep (p : NumberInput) : Z :=
  nearestInteger (PrimFloat.div (max p) (step p)).

(** Modelled from the spec: [IconInput.vue] is not among the sources.
    The value an input hands to its [v-model] is the entered number
    clamped to [min, max] at the granularity [step]: what is not at
    least [min] (also what is no number) becomes [min], what is above
    [max] becomes [max], and a number in between becomes the multiple
    of [step] nearest to it. *)
Definition IconInput_value (p : NumberInput) (x : float) : float :=
  if PrimFloat.leb (min p) x then
    if PrimFloat.leb x (max p) then
      gridPoint p
        (Z.max (lowStep p)
           (Z.min (highStep p) (nearestInteger (PrimFloat.div x (step p)))))
    else max p
  else min p.

(** Every value of the input's grid lies in [min, max] and is handed
    over as it is: the check, point by point. *)
Definition gridChecked (p : NumberInput) : bool :=
  forallb
    (fun j =>
       let g := gridPoint p (lowStep p + Z.of_nat j) in
       PrimFloat.leb (min p) g && PrimFloat.leb g (max p)
       && PrimFloat.Leibniz.eqb (IconInput_value p g) g)
    (seq 0 (S (Z.to_nat (highStep p - lowStep p)))).

Definition update_shape (st : State) (r : ref) (o : ShapeWithColor) : State :=
  with_store st (fun r' => if Nat.eqb r' r then o else store st r')
    (nextRef st).

(** [v-model:value="item.depth"] and [v-model:value="item.startZ"] of the
    row [index]: the write goes to the object the row shows. *)
Definition setDepth (st : State) (index : Z) (x : float) : State :=
  match JS.at_index (svgShapes st) index with
  | Some r =>
      let item := store st r in
      update_shape st r
        (mkShape (color item) (IconInput_value depthInput x) (startZ item))
  | None => st
  end.

Definition setStartZ (st : State) (index : Z) (x : float) : State :=
  match JS.at_index (svgShapes st) index with
  | Some r =>
      let item := store st r in
      update_shape st r
        (mkShape (color item) (depth item) (IconInput_value startZInput x))
  | None => st
  end.

(** [handleColorChange]: the write goes to the object of the row; on
    what is no row of the list the property write throws (here [None]).
    The color is the one [Color().setStyle] reads from the text. *)
Definition handleColorChange (st : State) (index : Z) (c : Z) : option State :=
  match JS.at_index (svgShapes st) index with
  | Some r =>
      let item := store st r in
      Some (update_shape st r (mkShape c (depth item) (startZ item)))
  | None => None
  end.

(* ================================================================== *)
(** ** The component as an event-driven machine *)

(** What can happen to the component: the handlers of the template and
    of the script, each run to completion, one at a time. *)
Inductive Event :=
| FileRead (svgData : string)          (* [handleFileSelected] *)
| Paste (paste : option string)        (* the document's paste listener *)
| TypeSvgCode (text : string)          (* the textarea *)
| InputSvgCode                         (* the Convert button *)
| DefaultFetched (response : option string)   (* [onMounted] *)
| Close (response : option string)     (* the trash button *)
| Tick
| MouseEnter (index : Z)
| MouseLeave
| Focus (index : Z)
| Blur
| SelectShown (index : Z)              (* the renderer's selection write *)
| Exporting (b : bool)                 (* the exporter's flag *)
| ColorInput (index : Z) (c : Z)
| DepthInput (index : Z) (x : float)
| StartZInput (index : Z) (x : float)
| SizeInput (x : float).

Section Machine.

Variable createShapesWithColor : string -> LoaderOptions -> list ShapeWithColor.

Definition handle (st : State) (ev : Event) : State :=
  match ev with
  | FileRead svgData => mountSVG createShapesWithColor st svgData None
  | Paste paste => fst (pasteSvg createShapesWithColor st paste)
  | TypeSvgCode text => with_svgCode st text
  | InputSvgCode => handleInputSvgCode createShapesWithColor st
  | DefaultFetched response => loadDefaultSvg createShapesWithColor st response
  | Close response => handleClose createShapesWithColor st response
  | Tick => tick st
  | MouseEnter index => mouseenter st index
  | MouseLeave => mouseleave st
  | Focus index => focus st index
  | Blur => blur st
  | SelectShown index => selectedShownShapeIndex_set st index
  | Exporting b => with_isExporting st b
  | ColorInput index c =>
      match handleColorChange st index c with
      | Some st' => st'
      | None => st
      end
  | DepthInput index x => setDepth st index x
  | StartZInput index x => setStartZ st index x
  | SizeInput x => with_size st x
  end.

Definition run (events : list Event) : State := fold_left handle events initial.

End Machine.

(** The shape list holds pairwise distinct objects, all of them
    allocated. *)
Definition distinctShapes (st : State) : Prop :=
  NoDup (svgShapes st) /\ Forall (fun r => (r < nextRef st)%nat) (svgShapes st).

(* ================================================================== *)
(** ** The raster fallback: [convertBitmapToSvg] *)

Module Raster.

Import JSString.
Local Open Scope string_scope.

(** [s] without its prefix [p], when [p] is a prefix of [s]. *)
Fixpoint stripPrefix (p s : string) : option string :=
  match p, s with
  | EmptyString, _ => Some s
  | String a p', String b s' =>
      if Ascii.eqb a b then stripPrefix p' s' else None
  | String _ _, EmptyString => None
  end.

(** The tag's rest, any characters but [>] and then [>]: the text is
    read up to and including its first [>]; what follows it. *)
Fixpoint afterFirstGt (s : string) : option string :=
  match s with
  | EmptyString => None
  | String c t => if Ascii.eqb c ">" then Some t else afterFirstGt t
  end.

(** The group of any characters followed by the closing tag: the group
    is greedy, it runs up to the last closing tag; the text captured. *)
Fixpoint beforeLastClose (s : string) : option string :=
  match s with
  | EmptyString => None
  | String c t =>
      match beforeLastClose t with
      | Some r => Some (String c r)
      | None =>
          match stripPrefix "</svg>" s with
          | Some _ => Some EmptyString
          | None => None
          end
      end
  end.

(** The pattern tried at the start of [s]. *)
Definition matchHere (s : string) : option string :=
  match stripPrefix "<svg" s with
  | Some rest =>
      match afterFirstGt rest with
      | Some inner => beforeLastClose inner
      | None => None
      end
  | None => None
  end.

(** [svg.match] of the pattern (an opening tag up to its [>], a group
    of any characters, the closing tag): the pattern is tried at each
    position from the left; the result is the group. *)
Fixpoint matchContent (s : string) : option string :=
  match matchHere s with
  | Some c => Some c
  | None =>
      match s with
      | EmptyString => None
      | String _ t => matchContent t
      end
  end.

Definition padding : N := 8.
Definition cornerRadius : N := 8.

Definition attr (name value : string) : string :=
  name ++ "=" ++ dquote ++ value ++ dquote.

(** The document [convertBitmapToSvg] resolves to, from the decoded
    image size and the document the tracer returned.  The image size is
    a pair of unsigned integers ([img.width], [img.height]). *)
Definition convertBitmapToSvg (imageWidth imageHeight : N) (svg : string)
  : string :=
  let svgWidth := (imageWidth + padding * 2)%N in
  let svgHeight := (imageHeight + padding * 2)%N in
  let contentMatch := matchContent svg in
  let content := match contentMatch with
                 | Some c => c
                 | None => EmptyString
                 end in
  "<svg " ++ attr "width" (ofNumber svgWidth) ++ " "
    ++ attr "height" (ofNumber svgHeight) ++ " "
    ++ attr "viewBox"
         ("0 0 " ++ ofNumber svgWidth ++ " " ++ ofNumber svgHeight)
    ++ ">" ++ newline
    ++ "  <rect " ++ attr "x" "0" ++ " " ++ attr "y" "0" ++ " "
    ++ attr "width" (ofNumber svgWidth) ++ " "
    ++ attr "height" (ofNumber svgHeight) ++ " "
    ++ attr "rx" (ofNumber cornerRadius) ++ " "
    ++ attr "ry" (ofNumber cornerRadius) ++ " "
    ++ attr "fill" "white" ++ "/>" ++ newline
    ++ "  <g "
    ++ attr "transform"
         ("translate(" ++ ofNumber padding ++ "," ++ ofNumber padding ++ ")")
    ++ ">" ++ newline
    ++ "    " ++ content ++ newline
    ++ "  </g>" ++ newline
    ++ "</svg>".

End Raster.

(* ================================================================== *)
(** ** The bore: [subtractCylinder] of [useCsg] *)

Module Csg.

(** What [subtractCylinder] uses of [three] and [three-bvh-csg]. *)
Inductive Geometry (G : Type) :=
| Buffer (g : G)
| CylinderGeometry (radiusTop radiusBottom height : float)
                   (radialSegments : Z).
Arguments Buffer {G} g.
Arguments CylinderGeometry {G} radiusTop radiusBottom height radialSegments.

Inductive Operation :=
| ADDITION
| SUBTRACTION
| REVERSE_SUBTRACTION
| INTERSECTION
| DIFFERENCE.

(** A brush: its geometry, its position, and whether its world matrix
    is up to date with it.  A new brush sits at the origin. *)
Record Brush (G : Type) := mkBrush {
  geometry : Geometry G;
  position : float * float * float;
  matrixWorldUpdated : bool
}.
Arguments mkBrush {G} geometry position matrixWorldUpdated.
Arguments geometry {G} b.
Arguments position {G} b.
Arguments matrixWorldUpdated {G} b.

Definition origin : float * float * float := (0%float, 0%float, 0%float).

Definition newBrush {G : Type} (g : Geometry G) : Brush G :=
  mkBrush g origin false.

Definition updateMatrixWorld {G : Type} (b : Brush G) : Brush G :=
  mkBrush (geometry b) (position b) true.

Section SubtractCylinder.

Variables G Mesh : Type.

(** [new Evaluator().evaluate(a, b, operation)] *)
Variable evaluate : Brush G -> Brush G -> Operation -> Mesh.

Definition subtractCylinder (geometry : G) : Mesh :=
  let originalBrush := newBrush (Buffer geometry) in
  let originalBrush := updateMatrixWorld originalBrush in
  let cylinderRadius := 2.5%float in
  let cylinderHeight := 100%float in
  let cylinderGeometry :=
    CylinderGeometry cylinderRadius cylinderRadius cylinderHeight 32 in
  let cylinderBrush := newBrush cylinderGeometry in
  let cylinderBrush := updateMatrixWorld cylinderBrush in
  let result := evaluate originalBrush cylinderBrush SUBTRACTION in
  result.

End SubtractCylinder.

End Csg.

(* ================================================================== *)
(** ** The specification's own terms, to compare the code with *)

Module Spec.

(** VisibleShapeView: the records with [depth > 0], in list order. *)
Definition visibleShapeView (st : State) : list ref :=
  filter (fun r => PrimFloat.ltb PrimFloat.zero (depthOf st r)) (svgShapes st).

(** The position of the full index [f] within the visible view: the
    number of visible shapes before it; none when the shape at [f] is
    hidden or [f] is no index of the list. *)
Definition toVisibleIndex (st : State) (f : Z) : option Z :=
  match JS.at_index (svgShapes st) f with
  | Some r =>
      if JS.truthy (depthOf st r)
      then Some (Z.of_nat (List.length
                   (filter (fun i => JS.truthy (depthOf st i))
                           (firstn (Z.to_nat f) (svgShapes st)))))
      else None
  | None => None
  end.

(** [needle] stands in [s] at position [i]. *)
Definition occursAt (needle s : string) (i : nat) : Prop :=
  String.substring i (String.length needle) s = needle.

(** [i] is where [needle] is located: its first position in [s]. *)
Definition locatedAt (needle s : string) (i : nat) : Prop :=
  occursAt needle s i /\ forall k, (k < i)%nat -> ~ occursAt needle s k.

Definition contains (needle s : string) : Prop :=
  exists i, occursAt needle s i.

(** Empty or white space only. *)
Definition blank (s : string) : Prop :=
  forall c, In c (list_ascii_of_string s) -> JSString.isWhiteSpace c = true.

(** The document check in the specification's words: the text is not
    blank, and, with letter case ignored, the opening root tag is
    located strictly before the closing root tag and one of the three
    sizing attribute names occurs. *)
Definition isValidDocument (text : string) : Prop :=
  ~ blank text /\
  (exists i j, locatedAt "<svg" (JSString.toLowerCase text) i /\
               locatedAt "</svg>" (JSString.toLowerCase text) j /\
               (i < j)%nat) /\
  (contains "viewbox" (JSString.toLowerCase text) \/
   contains "width" (JSString.toLowerCase text) \/
   contains "height" (JSString.toLowerCase text)).

(** The root-tag pattern matches [svg] with [content] in its group:
    an opening root tag that runs to its first [>], then [content],
    then a closing root tag. *)
Definition rootTagMatch (svg content : string) : Prop :=
  exists pre tag post,
    svg = (pre ++ "<svg" ++ tag ++ ">" ++ content ++ "</svg>" ++ post)%string
    /\ forall c, In c (list_ascii_of_string tag) -> c <> ">"%char.

End Spec.

(** Example states: three shapes of depth [2], [0] and [1], as a loader
    that returns them mounts them, and the same with a row hovered, a
    row being edited and an export running. *)
Definition exampleLoader (_ : string) (_ : LoaderOptions)
  : list ShapeWithColor :=
  [mkShape 0 2%float 0%float; mkShape 0 0%float 0%float;
   mkShape 0 1%float 0%float].

Definition exampleState : State :=
  mountSVG exampleLoader initial "<svg width='1'></svg>" None.

Definition exampleBusyState : State :=
  with_isExporting
    (with_editingInputIndex (with_selectedShapeIndex exampleState (Some 2))
       (Some 0))
    true.

(* ================================================================== *)
(** ** The rest of the component: rows, files and the paste listener *)

(** The assignment a [v-model:value="item.depth"] performs with the
    value [d] the input hands over: [item.depth = d] on the object of
    the row [index]. *)
Definition writeDepth (st : State) (index : Z) (d : float) : State :=
  match JS.at_index (svgShapes st) index with
  | Some r =>
      let item := store st r in
      update_shape st r (mkShape (color item) d (startZ item))
  | None => st
  end.

(** The border class of the row [index]:
    [editingInputIndex !== null ? editingInputIndex === index
                                : selectedShapeIndex === index]. *)
Definition rowHighlighted (st : State) (index : Z) : bool :=
  match editingInputIndex st with
  | Some e => e =? index
  | None =>
      match selectedShapeIndex st with
      | Some s => s =? index
      | None => false
      end
  end.

(** The opacity class of a row: [item.depth === 0]. *)
Definition rowDimmed (st : State) (r : ref) : bool :=
  PrimFloat.eqb (depthOf st r) PrimFloat.zero.

(** A selected file, with what the browser and the tracer make of it:
    its type, the text a [FileReader] reads, the decoded image size and
    the document [potrace.trace] calls back with. *)
Record File := mkFile {
  type : string;
  text : string;
  imageWidth : N;
  imageHeight : N;
  traced : string
}.

(** [!file.type.includes('svg') && file.type.startsWith('image/')] *)
Definition isBitmap (file : File) : bool :=
  negb (JSString.includes (type file) "svg")
  && String.prefix "image/" (type file).

(** The document [handleFileSelected] hands to [mountSVG]. *)
Definition selectedDocument (file : File) : string :=
  if isBitmap file
  then Raster.convertBitmapToSvg (imageWidth file) (imageHeight file)
         (traced file)
  else text file.

(** A paste event on the document: the tag of its target and the text
    of its clipboard data, if any. *)
Record PasteEvent := mkPaste {
  targetTag : string;
  clipboardText : option string
}.

Section Intake.

Variable createShapesWithColor : string -> LoaderOptions -> list ShapeWithColor.

(** [handleFileSelected], resumed with what reading or tracing gave. *)
Definition handleFileSelected (st : State) (files : list File) : State :=
  match files with
  | [] => st
  | file :: _ => mountSVG createShapesWithColor st (selectedDocument file) None
  end.

(** The paste listener: the new state and whether the event's default
    was prevented. *)
Definition documentPaste (st : State) (event : PasteEvent) : State * bool :=
  if String.eqb (targetTag event) "INPUT"
     || String.eqb (targetTag event) "TEXTAREA"
  then (st, false)
  else pasteSvg createShapesWithColor st (clipboardText event).

End Intake.
(* ================================================================== *)
(** ** Comparisons of binary64 numbers *)

Section FloatOrder.

Lemma SFcompare_antisym (x y : spec_float) (c : comparison) :
  SFcompare x y = Some c -> SFcompare y x = Some (CompOpp c).
Proof.
  destruct x as [sx | sx | | sx mx ex], y as [sy | sy | | sy my ey];
    simpl; try discriminate;
    try (destruct sx; intros [= <-]; reflexivity);
    try (destruct sy; intros [= <-]; reflexivity);
    try (intros [= <-]; reflexivity).
  - destruct sx, sy; intros [= <-]; reflexivity.
  - destruct sx, sy; try (intros [= <-]; reflexivity).
    + rewrite (Z.compare_antisym ex ey).
      destruct (ex ?= ey) eqn:E; simpl; intros [= <-]; try reflexivity.
      do 2 f_equal. symmetry. exact (Pos.compare_cont_antisym mx my Eq).
    + rewrite (Z.compare_antisym ex ey).
      destruct (ex ?= ey) eqn:E; simpl; intros [= <-]; try reflexivity.
      f_equal. symmetry. exact (Pos.compare_cont_antisym mx my Eq).
Qed.

Lemma SFcompare_refl (x : spec_float) :
  x <> S754_nan -> SFcompare x x = Some Eq.
Proof.
  destruct x as [s | s | | s m e]; simpl; intros H; try congruence.
  - destruct s; reflexivity.
  - destruct s; rewrite Z.compare_refl;
      change (Pos.compare_cont Eq m m) with (Pos.compare m m);
      rewrite Pos.compare_refl; reflexivity.
Qed.

Lemma is_nan_spec (x : float) :
  PrimFloat.is_nan x = false <-> Prim2SF x <> S754_nan.
Proof.
  unfold PrimFloat.is_nan. rewrite FloatAxioms.eqb_spec. unfold SFeqb. split.
  - intros H E. rewrite E in H. simpl in H. discriminate.
  - intros H. rewrite (SFcompare_refl _ H). reflexivity.
Qed.

(** A number that is neither below [y] nor [NaN] is at least [y]. *)
Lemma not_ltb_leb (x y : float) :
  PrimFloat.is_nan x = false -> PrimFloat.is_nan y = false ->
  PrimFloat.ltb x y = false -> PrimFloat.leb y x = true.
Proof.
  rewrite !is_nan_spec, FloatAxioms.ltb_spec, FloatAxioms.leb_spec. unfold SFltb, SFleb.
  intros Hx Hy.
  destruct (SFcompare (Prim2SF x) (Prim2SF y)) as [c |] eqn:E.
  - rewrite (SFcompare_antisym _ _ _ E). destruct c; simpl; congruence.
  - exfalso. destruct (Prim2SF x), (Prim2SF y); simpl in E;
      try congruence; try discriminate;
      repeat match goal with b : bool |- _ => destruct b end; discriminate.
Qed.

Lemma leb_refl (x : float) :
  PrimFloat.is_nan x = false -> PrimFloat.leb x x = true.
Proof.
  rewrite is_nan_spec, FloatAxioms.leb_spec. unfold SFleb. intros H.
  now rewrite (SFcompare_refl _ H).
Qed.

(** A number that is at least [y] is not below [y]. *)
Lemma leb_not_ltb (x y : float) :
  PrimFloat.leb y x = true -> PrimFloat.ltb x y = false.
Proof.
  rewrite FloatAxioms.ltb_spec, FloatAxioms.leb_spec. unfold SFltb, SFleb.
  destruct (SFcompare (Prim2SF y) (Prim2SF x)) as [c |] eqn:E;
    [| discriminate].
  rewrite (SFcompare_antisym _ _ _ E). destruct c; simpl; congruence.
Qed.

Lemma is_nan_true (x : float) :
  PrimFloat.is_nan x = true -> Prim2SF x = S754_nan.
Proof.
  intros H. destruct (Prim2SF x) eqn:E; try reflexivity;
    assert (N : PrimFloat.is_nan x = false)
      by (apply is_nan_spec; rewrite E; discriminate);
    congruence.
Qed.




(** A positive number is truthy. *)
Lemma positive_truthy (d : float) :
  PrimFloat.ltb PrimFloat.zero d = true -> JS.truthy d = true.
Proof.
  unfold JS.truthy, PrimFloat.is_nan. rewrite FloatAxioms.ltb_spec, !FloatAxioms.eqb_spec.
  unfold SFltb, SFeqb. change (Prim2SF PrimFloat.zero) with (S754_zero false).
  destruct (Prim2SF d) as [s | s | | s m e] eqn:E; simpl; try discriminate.
  - destruct s; simpl; try discriminate. reflexivity.
  - destruct s; simpl; try discriminate. intros _.
    rewrite Z.compare_refl.
    change (Pos.compare_cont Eq m m) with (Pos.compare m m).
    rewrite Pos.compare_refl. reflexivity.
Qed.

(** A number equal to zero ([0] or [-0]) is falsy. *)
Lemma zero_falsy (d : float) :
  PrimFloat.eqb d PrimFloat.zero = true -> JS.truthy d = false.
Proof.
  unfold JS.truthy. intros ->. rewrite orb_true_r. reflexivity.
Qed.

(** On numbers that are not negative, truthy and positive coincide. *)
Lemma truthy_positive (d : float) :
  PrimFloat.ltb d PrimFloat.zero = false ->
  JS.truthy d = PrimFloat.ltb PrimFloat.zero d.
Proof.
  unfold JS.truthy, PrimFloat.is_nan. rewrite !FloatAxioms.ltb_spec, !FloatAxioms.eqb_spec.
  unfold SFltb, SFeqb. change (Prim2SF PrimFloat.zero) with (S754_zero false).
  destruct (Prim2SF d) as [s | s | | s m e] eqn:E; simpl; try reflexivity.
  - destruct s; simpl; try discriminate; reflexivity.
  - destruct s; simpl; try discriminate. intros _.
    rewrite Z.compare_refl.
    change (Pos.compare_cont Eq m m) with (Pos.compare m m).
    rewrite Pos.compare_refl. reflexivity.
Qed.

End FloatOrder.

(* ================================================================== *)
(** ** Facts about array reads and [findIndex] *)

Section ArrayFacts.

Context {A : Type}.

Lemma at_index_of_nat (l : list A) (k : nat) :
  JS.at_index l (Z.of_nat k) = nth_error l k.
Proof.
  unfold JS.at_index.
  destruct (Z.ltb_spec (Z.of_nat k) 0); [lia |].
  now rewrite Nat2Z.id.
Qed.

Lemma at_index_nonneg (l : list A) (i : Z) :
  0 <= i -> JS.at_index l i = nth_error l (Z.to_nat i).
Proof.
  intros H. unfold JS.at_index.
  destruct (Z.ltb_spec i 0); [lia | reflexivity].
Qed.

Lemma at_index_Some (l : list A) (i : Z) (x : A) :
  JS.at_index l i = Some x ->
  0 <= i < Z.of_nat (List.length l) /\ nth_error l (Z.to_nat i) = Some x.
Proof.
  unfold JS.at_index. destruct (Z.ltb_spec i 0); [discriminate |].
  intros E. split; [| exact E].
  assert (Z.to_nat i < List.length l)%nat
    by (apply nth_error_Some; congruence).
  lia.
Qed.

Lemma at_index_outside (l : list A) (i : Z) :
  i < 0 \/ Z.of_nat (List.length l) <= i -> JS.at_index l i = None.
Proof.
  unfold JS.at_index. destruct (Z.ltb_spec i 0); [reflexivity |].
  intros [H' | H']; [lia |]. apply nth_error_None. lia.
Qed.

Lemma findIndexFrom_range (p : A -> bool) (l : list A) (i : Z) :
  JS.findIndexFrom p l i = -1 \/
  i <= JS.findIndexFrom p l i < i + Z.of_nat (List.length l).
Proof.
  revert i. induction l as [| x t IH]; intros i; simpl.
  - now left.
  - destruct (p x).
    + right. lia.
    + destruct (IH (i + 1)) as [E | E]; [now left | right; lia].
Qed.

Lemma findIndexFrom_none (p : A -> bool) (l : list A) (i : Z) :
  (forall x, In x l -> p x = false) -> JS.findIndexFrom p l i = -1.
Proof.
  revert i. induction l as [| x t IH]; intros i H; simpl.
  - reflexivity.
  - rewrite (H x (or_introl eq_refl)). apply IH.
    intros y Hy. apply H. now right.
Qed.

(** The first position that satisfies [p] is what [findIndex] returns. *)
Lemma findIndexFrom_first (p : A -> bool) (l : list A) (i : Z)
      (k : nat) (x : A) :
  nth_error l k = Some x -> p x = true ->
  (forall j y, (j < k)%nat -> nth_error l j = Some y -> p y = false) ->
  JS.findIndexFrom p l i = i + Z.of_nat k.
Proof.
  revert i k. induction l as [| a t IH]; intros i k Hk Hp Hbefore.
  - destruct k; discriminate.
  - simpl. destruct k as [| k'].
    + simpl in Hk. injection Hk as ->. rewrite Hp. lia.
    + rewrite (Hbefore 0%nat a) by (simpl; auto; lia).
      rewrite (IH (i + 1) k'); [lia | exact Hk | exact Hp |].
      intros j y Hj Hy. apply (Hbefore (S j) y); [lia | exact Hy].
Qed.

Lemma findIndex_found (p : A -> bool) (l : list A) :
  JS.findIndex p l <> -1 ->
  exists x, nth_error l (Z.to_nat (JS.findIndex p l)) = Some x /\ p x = true.
Proof.
  unfold JS.findIndex.
  assert (G : forall i, 0 <= i -> JS.findIndexFrom p l i <> -1 ->
    exists x, nth_error l (Z.to_nat (JS.findIndexFrom p l i - i)) = Some x
              /\ p x = true).
  { induction l as [| a t IH]; intros i Hi; simpl.
    - congruence.
    - destruct (p a) eqn:Ea.
      + intros _. exists a. rewrite Z.sub_diag. simpl. auto.
      + intros Hne. destruct (IH (i + 1) ltac:(lia) Hne) as [x [Hx Hpx]].
        exists x. split; [| exact Hpx].
        destruct (findIndexFrom_range p t (i + 1)) as [E | E];
          [congruence |].
        replace (Z.to_nat (JS.findIndexFrom p t (i + 1) - i))
          with (S (Z.to_nat (JS.findIndexFrom p t (i + 1) - (i + 1))))
          by lia.
        exact Hx. }
  intros H. specialize (G 0 ltac:(lia) H). now rewrite Z.sub_0_r in G.
Qed.

(** A position of [l] that satisfies [p] sits, in [filter p l], behind
    the elements of [l] before it that satisfy [p]. *)
Lemma nth_error_filter (p : A -> bool) (l : list A) (k : nat) (x : A) :
  nth_error l k = Some x -> p x = true ->
  nth_error (filter p l) (List.length (filter p (firstn k l))) = Some x.
Proof.
  revert k. induction l as [| a t IH]; intros k Hk Hp.
  - destruct k; discriminate.
  - destruct k as [| k']; simpl in *.
    + injection Hk as ->. rewrite Hp. reflexivity.
    + destruct (p a); simpl; apply IH; assumption.
Qed.

End ArrayFacts.

Section IdentitySearch.

(** Searching a list of pairwise distinct references for the one at
    position [k] finds [k]. *)
Lemma findIndex_identity (l : list ref) (k : nat) (r : ref) :
  NoDup l -> nth_error l k = Some r ->
  JS.findIndex (fun s => strictEq s (Some r)) l = Z.of_nat k.
Proof.
  intros Hnd Hk. unfold JS.findIndex.
  rewrite (findIndexFrom_first _ l 0 k r Hk); [lia | apply Nat.eqb_refl |].
  intros j y Hj Hy. simpl. apply Nat.eqb_neq. intros ->.
  assert (j = k); [| lia].
  apply (proj1 (NoDup_nth_error l) Hnd).
  - apply nth_error_Some. congruence.
  - congruence.
Qed.

Lemma findIndex_undefined (l : list ref) :
  JS.findIndex (fun s => strictEq s None) l = -1.
Proof. apply findIndexFrom_none. reflexivity. Qed.

Lemma findIndex_absent (l : list ref) (r : ref) :
  ~ In r l -> JS.findIndex (fun s => strictEq s (Some r)) l = -1.
Proof.
  intros H. apply findIndexFrom_none. intros x Hx. simpl.
  apply Nat.eqb_neq. congruence.
Qed.

End IdentitySearch.

(* ================================================================== *)
(** ** The visible view and the index conversions *)

Section VisibleView.

Variable st : State.

Lemma In_shownShapes (r : ref) :
  In r (shownShapes st) <->
  In r (svgShapes st) /\ JS.truthy (depthOf st r) = true.
Proof. unfold shownShapes. apply filter_In. Qed.

Lemma NoDup_shownShapes :
  NoDup (svgShapes st) -> NoDup (shownShapes st).
Proof. intros H. unfold shownShapes. now apply NoDup_filter. Qed.

(** The visible index of a visible shape counts the visible shapes
    before it. *)
Lemma toShownIndex_visible (f : Z) (r : ref) :
  NoDup (svgShapes st) ->
  JS.at_index (svgShapes st) f = Some r ->
  JS.truthy (depthOf st r) = true ->
  exists c : nat,
    c = List.length (filter (fun i => JS.truthy (depthOf st i))
                       (firstn (Z.to_nat f) (svgShapes st))) /\
    nth_error (shownShapes st) c = Some r /\
    toShownIndex st f = Z.of_nat c.
Proof.
  intros Hnd Hf Hvis.
  destruct (at_index_Some _ _ _ Hf) as [Hrange Hnth].
  eexists. split; [reflexivity |].
  assert (Hc := nth_error_filter (fun i => JS.truthy (depthOf st i))
                  (svgShapes st) (Z.to_nat f) r Hnth Hvis).
  split; [exact Hc |].
  unfold toShownIndex. rewrite Hf.
  apply findIndex_identity; [now apply NoDup_shownShapes | exact Hc].
Qed.

Lemma toShownIndex_hidden (f : Z) (r : ref) :
  JS.at_index (svgShapes st) f = Some r ->
  JS.truthy (depthOf st r) = false ->
  toShownIndex st f = -1.
Proof.
  intros Hf Hhid. unfold toShownIndex. rewrite Hf.
  apply findIndex_absent. rewrite In_shownShapes. intros [_ H]. congruence.
Qed.

Lemma toShownIndex_outside (f : Z) :
  JS.at_index (svgShapes st) f = None -> toShownIndex st f = -1.
Proof.
  intros Hf. unfold toShownIndex. rewrite Hf. apply findIndex_undefined.
Qed.

(** The full index of a visible index is a row that holds the same
    object. *)
Lemma toSvgIndex_visible (v : Z) (r : ref) :
  NoDup (svgShapes st) ->
  JS.at_index (shownShapes st) v = Some r ->
  exists k : nat,
    nth_error (svgShapes st) k = Some r /\ toSvgIndex st v = Z.of_nat k.
Proof.
  intros Hnd Hv.
  destruct (at_index_Some _ _ _ Hv) as [_ Hnth].
  assert (Hin : In r (svgShapes st)).
  { apply nth_error_In in Hnth. now apply In_shownShapes in Hnth. }
  destruct (In_nth_error _ _ Hin) as [k Hk].
  exists k. split; [exact Hk |].
  unfold toSvgIndex. rewrite Hv. now apply findIndex_identity.
Qed.

Lemma toSvgIndex_outside (v : Z) :
  JS.at_index (shownShapes st) v = None -> toSvgIndex st v = -1.
Proof.
  intros Hv. unfold toSvgIndex. rewrite Hv. apply findIndex_undefined.
Qed.

(** The code's conversion to a visible index is the specification's:
    the position within the visible view, none for a hidden shape and
    for what is no index of the list. *)
Lemma formatSelectedShapeIndex_position (f : Z) :
  NoDup (svgShapes st) ->
  formatSelectedShapeIndex st (Some f) = Spec.toVisibleIndex st f.
Proof.
  intros Hnd. unfold formatSelectedShapeIndex, Spec.toVisibleIndex.
  destruct (JS.at_index (svgShapes st) f) as [r |] eqn:Hf.
  - destruct (JS.truthy (depthOf st r)) eqn:Hvis.
    + destruct (toShownIndex_visible f r Hnd Hf Hvis) as [c [Hc [_ E]]].
      rewrite E, <- Hc.
      destruct (Z.eqb_spec (Z.of_nat c) (-1)); [lia | reflexivity].
    + now rewrite (toShownIndex_hidden f r Hf Hvis).
  - now rewrite (toShownIndex_outside f Hf).
Qed.

(** Whatever the index, the converted index is none or a position of
    the visible view. *)
Lemma formatSelectedShapeIndex_total (index : option Z) :
  formatSelectedShapeIndex st index = None \/
  exists v r, formatSelectedShapeIndex st index = Some v /\
              0 <= v < Z.of_nat (List.length (shownShapes st)) /\
              JS.at_index (shownShapes st) v = Some r.
Proof.
  destruct index as [i |]; [| now left]. simpl.
  destruct (Z.eqb_spec (toShownIndex st i) (-1)) as [E | E]; [now left |].
  right. unfold toShownIndex in *.
  destruct (findIndex_found _ _ E) as [r [Hr _]].
  destruct (findIndexFrom_range
              (fun s => strictEq s (JS.at_index (svgShapes st) i))
              (shownShapes st) 0) as [E' | E'];
    [unfold JS.findIndex in E; congruence |].
  fold (JS.findIndex (fun s => strictEq s (JS.at_index (svgShapes st) i))
          (shownShapes st)) in E'.
  eexists. exists r. split; [reflexivity |]. split; [lia |].
  rewrite at_index_nonneg by lia. exact Hr.
Qed.

End VisibleView.

(* ================================================================== *)
(** ** The shape list of every state the component reaches *)

Section Invariant.

Variable load : string -> LoaderOptions -> list ShapeWithColor.

Lemma distinctShapes_initial : distinctShapes initial.
Proof. split; constructor. Qed.

Lemma distinctShapes_mountSVG (st : State) (svgData : string)
    (customShapes : option (list ShapeWithColor -> Z -> list ShapeWithColor)) :
  distinctShapes (mountSVG load st svgData customShapes).
Proof.
  split; simpl.
  - apply seq_NoDup.
  - apply Forall_forall. intros r Hr. apply in_seq in Hr. lia.
Qed.

Lemma fold_runCallback_shapes (due : list (nat * Callback)) (st : State) :
  (svgShapes (fold_left (fun s d => runCallback (snd d) s) due st)
   = svgShapes st) /\
  (nextRef (fold_left (fun s d => runCallback (snd d) s) due st)
   = nextRef st).
Proof.
  revert st. induction due as [| [n [v]] t IH]; intros st; simpl.
  - split; reflexivity.
  - destruct (IH (with_size st v)) as [E1 E2]. now rewrite E1, E2.
Qed.

Lemma distinctShapes_pasteSvg (st : State) (paste : option string) :
  distinctShapes st -> distinctShapes (fst (pasteSvg load st paste)).
Proof.
  intros Hst. unfold pasteSvg. destruct paste as [text |]; [| exact Hst].
  destruct (negb (String.length text =? 0)%nat && isValidSvg text).
  - apply distinctShapes_mountSVG.
  - exact Hst.
Qed.

Lemma distinctShapes_loadDefaultSvg (st : State) (response : option string) :
  distinctShapes st -> distinctShapes (loadDefaultSvg load st response).
Proof.
  intros Hst. destruct response as [svgData |]; [| exact Hst].
  exact (distinctShapes_mountSVG (with_fileName st EmptyString) svgData
           (Some defaultCustomShapes)).
Qed.

Lemma distinctShapes_tick (st : State) :
  distinctShapes st -> distinctShapes (tick st).
Proof.
  intros Hst. unfold distinctShapes, tick.
  destruct (fold_runCallback_shapes
    (filter (fun d => (fst d <=? 1)%nat) (pending st))
    (with_pending st
       (map (fun d => (Nat.pred (fst d), snd d))
          (filter (fun d => negb (fst d <=? 1)%nat) (pending st)))))
    as [E1 E2].
  rewrite E1, E2. exact Hst.
Qed.

Lemma distinctShapes_handle (st : State) (ev : Event) :
  distinctShapes st -> distinctShapes (handle load st ev).
Proof.
  intros Hst. destruct ev; cbn [handle].
  - apply distinctShapes_mountSVG.
  - now apply distinctShapes_pasteSvg.
  - exact Hst.
  - exact (distinctShapes_pasteSvg st (Some (svgCode st)) Hst).
  - now apply distinctShapes_loadDefaultSvg.
  - apply distinctShapes_loadDefaultSvg. split; constructor.
  - now apply distinctShapes_tick.
  - exact Hst.
  - exact Hst.
  - exact Hst.
  - exact Hst.
  - unfold selectedShownShapeIndex_set.
    destruct (isDefaultSvg st || isExporting st); exact Hst.
  - exact Hst.
  - unfold handleColorChange.
    destruct (JS.at_index (svgShapes st) index); exact Hst.
  - unfold setDepth. destruct (JS.at_index (svgShapes st) index); exact Hst.
  - unfold setStartZ. destruct (JS.at_index (svgShapes st) index); exact Hst.
  - exact Hst.
Qed.

(** Whatever has happened, the shape list holds pairwise distinct
    objects. *)
Lemma distinctShapes_run (events : list Event) :
  distinctShapes (run load events).
Proof.
  unfold run. induction events as [| ev events IH] using rev_ind.
  - apply distinctShapes_initial.
  - rewrite fold_left_app. simpl. now apply distinctShapes_handle.
Qed.

End Invariant.

(** The shapes a loader call mounts are pairwise distinct objects. *)
Lemma mountSVG_NoDup
    (load : string -> LoaderOptions -> list ShapeWithColor)
    (st : State) (svgData : string)
    (customShapes : option (list ShapeWithColor -> Z -> list ShapeWithColor)) :
  NoDup (svgShapes (mountSVG load st svgData customShapes)).
Proof. simpl. apply seq_NoDup. Qed.

(** C1. For a shape list of pairwise distinct shape objects: a full
    index [f] whose shape has depth above zero is given back by
    [toSvgIndex] after [toShownIndex], and a visible index [v] that
    indexes a shape of the visible list is given back by [toShownIndex]
    after [toSvgIndex]. *)
Theorem index_round_trip (st : State) :
  NoDup (svgShapes st) ->
  (forall f r,
      JS.at_index (svgShapes st) f = Some r ->
      PrimFloat.ltb PrimFloat.zero (depthOf st r) = true ->
      toSvgIndex st (toShownIndex st f) = f) /\
  (forall v r,
      JS.at_index (shownShapes st) v = Some r ->
      toShownIndex st (toSvgIndex st v) = v).
Proof.
  intros Hnd. split.
  - intros f r Hf Hpos.
    assert (Hvis := positive_truthy _ Hpos).
    destruct (toShownIndex_visible st f r Hnd Hf Hvis) as [c [_ [Hc E]]].
    rewrite E. unfold toSvgIndex. rewrite at_index_of_nat, Hc.
    destruct (at_index_Some _ _ _ Hf) as [Hrange Hnth].
    rewrite (findIndex_identity _ _ _ Hnd Hnth). lia.
  - intros v r Hv.
    destruct (toSvgIndex_visible st v r Hnd Hv) as [k [Hk E]].
    rewrite E. unfold toShownIndex. rewrite at_index_of_nat, Hk.
    destruct (at_index_Some _ _ _ Hv) as [Hrange Hnth].
    rewrite (findIndex_identity _ _ _ (NoDup_shownShapes st Hnd) Hnth). lia.
Qed.

Lemma index_round_trip_witness :
  NoDup (svgShapes exampleState) /\
  toSvgIndex exampleState (toShownIndex exampleState 2) = 2 /\
  toShownIndex exampleState (toSvgIndex exampleState 1) = 1.
Proof.
  assert (Hnd : NoDup (svgShapes exampleState))
    by (apply (mountSVG_NoDup exampleLoader)).
  split; [exact Hnd |].
  destruct (index_round_trip exampleState Hnd) as [Hfull Hvis].
  split.
  - apply (Hfull 2 2%nat); reflexivity.
  - apply (Hvis 1 2%nat); reflexivity.
Defined.

(** C6. A full index whose shape has depth zero has no visible index:
    the search gives [-1], the converted index is none and the shape is
    not in the visible list.  Where no depth is negative, the visible
    list is the list of the shapes with depth above zero, in the order
    of the full list. *)
Theorem hidden_shape_has_no_visible_index (st : State) :
  (forall f r,
      JS.at_index (svgShapes st) f = Some r ->
      PrimFloat.eqb (depthOf st r) PrimFloat.zero = true ->
      toShownIndex st f = -1 /\
      formatSelectedShapeIndex st (Some f) = None /\
      ~ In r (shownShapes st)) /\
  formatSelectedShapeIndex st None = None /\
  ((forall r, In r (svgShapes st) ->
              PrimFloat.ltb (depthOf st r) PrimFloat.zero = false) ->
   shownShapes st = Spec.visibleShapeView st).
Proof.
  split; [| split].
  - intros f r Hf Hzero.
    assert (Hhid := zero_falsy _ Hzero).
    assert (E := toShownIndex_hidden st f r Hf Hhid).
    split; [exact E |]. split.
    + simpl. now rewrite E.
    + rewrite In_shownShapes. intros [_ H]. congruence.
  - reflexivity.
  - intros Hdom. unfold shownShapes, Spec.visibleShapeView.
    apply filter_ext_in. intros r Hr. apply truthy_positive. now apply Hdom.
Qed.

Lemma hidden_shape_has_no_visible_index_witness :
  toShownIndex exampleState 1 = -1 /\
  formatSelectedShapeIndex exampleState (Some 1) = None /\
  ~ In 1%nat (shownShapes exampleState) /\
  shownShapes exampleState = Spec.visibleShapeView exampleState.
Proof.
  destruct (hidden_shape_has_no_visible_index exampleState)
    as [Hhidden [_ Hview]].
  destruct (Hhidden 1 1%nat eq_refl eq_refl) as [H1 [H2 H3]].
  split; [exact H1 | split; [exact H2 | split; [exact H3 |]]].
  apply Hview. intros r Hr. simpl in Hr.
  destruct Hr as [<- | [<- | [<- | []]]]; reflexivity.
Defined.

(** C10. Whatever the hovered and the editing index hold (also [-1] and
    indices outside the list), the selection read is none or a position
    of the visible list: at least zero, below the length of the visible
    list, and the position of a shape. *)
Theorem selection_read_total (st : State) :
  selectedShownShapeIndex_get st = None \/
  exists v r,
    selectedShownShapeIndex_get st = Some v /\
    0 <= v < Z.of_nat (List.length (shownShapes st)) /\
    JS.at_index (shownShapes st) v = Some r.
Proof.
  unfold selectedShownShapeIndex_get.
  destruct (isExporting st); [now left |].
  destruct (editingInputIndex st) as [e |];
    apply formatSelectedShapeIndex_total.
Qed.

(** The sentinel a selection write stores, read back. *)
Example selection_read_sentinel :
  selectedShapeIndex (selectedShownShapeIndex_set exampleState 7) = Some (-1)
  /\ selectedShownShapeIndex_get (selectedShownShapeIndex_set exampleState 7)
     = None
  /\ selectedShownShapeIndex_get (focus exampleState 99) = None
  /\ selectedShownShapeIndex_get (mouseenter exampleState 2) = Some 1.
Proof. repeat split; reflexivity. Qed.

(** C4. While exporting the selection read is none, whatever is hovered
    or edited; otherwise, with an editing index set, it is the visible
    index of the editing index, whatever is hovered; with no editing
    index it is the visible index of the hovered index. *)
Theorem selection_read_rule (st : State) :
  (isExporting st = true -> selectedShownShapeIndex_get st = None) /\
  (isExporting st = false ->
   forall e, editingInputIndex st = Some e ->
             selectedShownShapeIndex_get st
             = formatSelectedShapeIndex st (Some e)) /\
  (isExporting st = false -> editingInputIndex st = None ->
   selectedShownShapeIndex_get st
   = formatSelectedShapeIndex st (selectedShapeIndex st)).
Proof.
  unfold selectedShownShapeIndex_get. repeat split.
  - intros ->. reflexivity.
  - intros -> e ->. reflexivity.
  - intros -> ->. reflexivity.
Qed.

Lemma selection_read_rule_witness :
  selectedShownShapeIndex_get exampleBusyState = None /\
  selectedShownShapeIndex_get (with_isExporting exampleBusyState false)
  = Some 0 /\
  selectedShownShapeIndex_get
    (blur (with_isExporting exampleBusyState false)) = Some 1.
Proof.
  split; [| split].
  - apply (proj1 (selection_read_rule exampleBusyState)). reflexivity.
  - apply (proj1 (proj2 (selection_read_rule
             (with_isExporting exampleBusyState false))) eq_refl 0).
    reflexivity.
  - apply (proj2 (proj2 (selection_read_rule
             (blur (with_isExporting exampleBusyState false))))
             eq_refl eq_refl).
Defined.

(** C5. A selection write changes nothing while the default document is
    shown or an export runs (and a mesh click then asks for no focus);
    otherwise it stores the full index [toSvgIndex] gives for the
    visible index as the hovered index, and nothing else changes. *)
Theorem selection_write_rule (st : State) (v : Z) :
  (isDefaultSvg st = true \/ isExporting st = true ->
   selectedShownShapeIndex_set st v = st /\ handleMeshClick st v = None) /\
  (isDefaultSvg st = false -> isExporting st = false ->
   selectedShownShapeIndex_set st v
   = with_selectedShapeIndex st (Some (toSvgIndex st v)) /\
   selectedShapeIndex (selectedShownShapeIndex_set st v)
   = Some (toSvgIndex st v) /\
   editingInputIndex (selectedShownShapeIndex_set st v)
   = editingInputIndex st /\
   svgShapes (selectedShownShapeIndex_set st v) = svgShapes st /\
   handleMeshClick st v = Some (toSvgIndex st v)).
Proof.
  unfold selectedShownShapeIndex_set, handleMeshClick. split.
  - intros [-> | ->]; rewrite ?orb_true_r; split; reflexivity.
  - intros -> ->. simpl. repeat split.
Qed.

Lemma selection_write_rule_witness :
  selectedShownShapeIndex_set exampleBusyState 1 = exampleBusyState /\
  selectedShapeIndex (selectedShownShapeIndex_set exampleState 1) = Some 2.
Proof.
  split.
  - apply (proj1 (selection_write_rule exampleBusyState 1)).
    right. reflexivity.
  - apply (proj2 (selection_write_rule exampleState 1) eq_refl eq_refl).
Defined.

(* ================================================================== *)
(** ** The number inputs of a row *)

Section NumberInputs.

Variable p : NumberInput.
Hypothesis checked : gridChecked p = true.
Hypothesis min_on_grid : min p = gridPoint p (lowStep p).
Hypothesis max_on_grid : max p = gridPoint p (highStep p).
Hypothesis low_le_high : lowStep p <= highStep p.
Hypothesis above_max : forall x,
  PrimFloat.ltb (max p) x = true -> PrimFloat.leb (min p) x = true.

(** Every point of the grid lies in the range and is handed over as it
    is. *)
Lemma gridPoint_checked (k : Z) :
  lowStep p <= k <= highStep p ->
  PrimFloat.leb (min p) (gridPoint p k) = true /\
  PrimFloat.leb (gridPoint p k) (max p) = true /\
  IconInput_value p (gridPoint p k) = gridPoint p k.
Proof.
  intros Hk. assert (H := checked). unfold gridChecked in H.
  rewrite forallb_forall in H.
  specialize (H (Z.to_nat (k - lowStep p))).
  replace (lowStep p + Z.of_nat (Z.to_nat (k - lowStep p))) with k in H
    by lia.
  assert (Hin : In (Z.to_nat (k - lowStep p))
                  (seq 0 (S (Z.to_nat (highStep p - lowStep p)))))
    by (apply in_seq; lia).
  specialize (H Hin). cbv zeta in H.
  apply andb_true_iff in H. destruct H as [H H3].
  apply andb_true_iff in H. destruct H as [H1 H2].
  apply FloatAxioms.Leibniz.eqb_spec in H3. now repeat split.
Qed.

(** What the input hands over is a point of its grid. *)
Lemma IconInput_value_on_grid (x : float) :
  exists k, lowStep p <= k <= highStep p /\
            IconInput_value p x = gridPoint p k.
Proof.
  unfold IconInput_value.
  destruct (PrimFloat.leb (min p) x).
  - destruct (PrimFloat.leb x (max p)).
    + eexists. split; [| reflexivity]. lia.
    + exists (highStep p). split; [lia | exact max_on_grid].
  - exists (lowStep p). split; [lia | exact min_on_grid].
Qed.


Lemma IconInput_value_idempotent (x : float) :
  IconInput_value p (IconInput_value p x) = IconInput_value p x.
Proof.
  destruct (IconInput_value_on_grid x) as [k [Hk ->]].
  now destruct (gridPoint_checked k Hk) as [_ [_ H]].
Qed.




End NumberInputs.








(** A write through an input touches one object and leaves the list as
    it is. *)
Lemma setDepth_frame (st : State) (f : Z) (x : float) :
  svgShapes (setDepth st f x) = svgShapes st /\
  forall r r', JS.at_index (svgShapes st) f = Some r -> r' <> r ->
               store (setDepth st f x) r' = store st r'.
Proof.
  unfold setDepth. split.
  - destruct (JS.at_index (svgShapes st) f); reflexivity.
  - intros r r' -> Hne. simpl.
    destruct (Nat.eqb_spec r' r); [contradiction | reflexivity].
Qed.



(* ================================================================== *)
(** ** Loading and closing a document *)

Section Ticks.

Lemma runCallbacks_last (due : list (nat * Callback)) (n : nat) (v : float)
      (st : State) :
  size (fold_left (fun s d => runCallback (snd d) s)
          (due ++ [(n, SetSize v)]) st) = v.
Proof. rewrite fold_left_app. reflexivity. Qed.

Lemma runCallbacks_pending (due : list (nat * Callback)) (st : State) :
  pending (fold_left (fun s d => runCallback (snd d) s) due st) = pending st.
Proof.
  revert st. induction due as [| [n [v]] t IH]; intros st; simpl.
  - reflexivity.
  - now rewrite IH.
Qed.

(** A reset of the scale target queued last for two ticks has happened,
    and was the last to happen, once two ticks have passed. *)
Lemma size_after_two_ticks (st : State) (q : list (nat * Callback))
      (v : float) :
  size (tick (tick (with_pending st (q ++ [(2%nat, SetSize v)])))) = v.
Proof.
  unfold tick at 2. simpl pending.
  rewrite !filter_app, map_app. simpl.
  rewrite app_nil_r.
  unfold tick. rewrite runCallbacks_pending. simpl pending.
  rewrite filter_app. simpl. apply runCallbacks_last.
Qed.

End Ticks.

(** C3, as the code has it. [mountSVG] replaces the whole shape list by
    the newly created shape objects, clears [isDefaultSvg] and, two
    ticks later, sets the scale target to its default; it leaves the
    hovered index, the editing index and the export flag as they were.
    [handleClose] sets the hovered and the editing index to none, clears
    the export flag and sets the scale target to its default, whatever
    the reload of the default document gives. *)
Theorem load_and_close_effect
    (load : string -> LoaderOptions -> list ShapeWithColor)
    (st : State) (svgData : string)
    (customShapes : option (list ShapeWithColor -> Z -> list ShapeWithColor))
    (response : option string) :
  let created := load svgData (mkOptions defaultDepth 0%float customShapes) in
  let mounted := mountSVG load st svgData customShapes in
  let closed := handleClose load st response in
  (svgShapes mounted = seq (nextRef st) (List.length created) /\
   (forall k o, nth_error created k = Some o ->
                store mounted (nextRef st + k)%nat = o) /\
   (forall r, (r < nextRef st)%nat -> store mounted r = store st r) /\
   isDefaultSvg mounted = false /\
   size (tick (tick mounted)) = defaultSize) /\
  (selectedShapeIndex mounted = selectedShapeIndex st /\
   editingInputIndex mounted = editingInputIndex st /\
   isExporting mounted = isExporting st /\
   size mounted = size st) /\
  (selectedShapeIndex closed = None /\
   editingInputIndex closed = None /\
   isExporting closed = false /\
   size closed = defaultSize).
Proof.
  intros created mounted closed. split; [| split].
  - split; [reflexivity |]. split; [| split; [| split]].
    + intros k o Hk. subst mounted. simpl.
      destruct (Nat.leb_spec (nextRef st) (nextRef st + k)); [| lia].
      replace (nextRef st + k - nextRef st)%nat with k by lia.
      now apply nth_error_nth.
    + intros r Hr. subst mounted. simpl.
      destruct (Nat.leb_spec (nextRef st) r); [lia | reflexivity].
    + reflexivity.
    + subst mounted. unfold mountSVG. apply size_after_two_ticks.
  - repeat split.
  - subst closed. destruct response; repeat split.
Qed.

(** C3 as stated fails: a document mounted while a row is hovered, an
    input is focused and an export runs keeps all three. *)
Lemma load_keeps_selection :
  selectedShapeIndex
    (tick (tick (mountSVG exampleLoader exampleBusyState
                   "<svg width='9'></svg>" None))) = Some 2 /\
  editingInputIndex
    (tick (tick (mountSVG exampleLoader exampleBusyState
                   "<svg width='9'></svg>" None))) = Some 0 /\
  isExporting
    (tick (tick (mountSVG exampleLoader exampleBusyState
                   "<svg width='9'></svg>" None))) = true.
Proof. repeat split. Qed.

(* ================================================================== *)
(** ** The bore *)

(** C9. For every solid, [subtractCylinder] returns what the evaluator
    gives for the subtraction of a new cylinder of radius [2.5], height
    [100] and [32] radial segments from the solid, both brushes with
    their world matrix updated and the cylinder at the origin. *)
Theorem subtractCylinder_operands (G Mesh : Type)
    (evaluate : Csg.Brush G -> Csg.Brush G -> Csg.Operation -> Mesh)
    (solid : G) :
  Csg.subtractCylinder G Mesh evaluate solid
  = evaluate
      (Csg.mkBrush (Csg.Buffer solid) Csg.origin true)
      (Csg.mkBrush (Csg.CylinderGeometry 2.5%float 2.5%float 100%float 32)
                   Csg.origin true)
      Csg.SUBTRACTION
  /\ Csg.position (G := G)
       (Csg.updateMatrixWorld
          (Csg.newBrush
             (Csg.CylinderGeometry 2.5%float 2.5%float 100%float 32)))
     = (0%float, 0%float, 0%float).
Proof. split; reflexivity. Qed.

(* ================================================================== *)
(** ** The document check *)

Section StringFacts.

Import JSString.

Lemma blank_empty : Spec.blank EmptyString.
Proof. intros c []. Qed.

Lemma blank_cons (c : ascii) (s : string) :
  Spec.blank (String c s) <-> isWhiteSpace c = true /\ Spec.blank s.
Proof.
  unfold Spec.blank. simpl. split.
  - intros H. split; [apply H; now left | intros d Hd; apply H; now right].
  - intros [Hc Hs] d [<- | Hd]; [exact Hc | now apply Hs].
Qed.

Lemma trimStart_empty (s : string) :
  trimStart s = EmptyString <-> Spec.blank s.
Proof.
  induction s as [| c t IH]; simpl.
  - split; [intros _; apply blank_empty | reflexivity].
  - rewrite blank_cons. destruct (isWhiteSpace c).
    + rewrite IH. tauto.
    + split; [discriminate | intros [H _]; discriminate].
Qed.

Lemma trimStart_head (s : string) (c : ascii) (t : string) :
  trimStart s = String c t -> isWhiteSpace c = false.
Proof.
  induction s as [| a u IH]; simpl; [discriminate |].
  destruct (isWhiteSpace a) eqn:E; [exact IH |].
  intros [= <- <-]. exact E.
Qed.

Lemma trimEnd_empty (s : string) :
  trimEnd s = EmptyString <-> Spec.blank s.
Proof.
  induction s as [| c t IH]; simpl.
  - split; [intros _; apply blank_empty | reflexivity].
  - rewrite blank_cons, <- IH.
    destruct (trimEnd t); destruct (isWhiteSpace c); split;
      try discriminate; try tauto; intros [H1 H2]; discriminate.
Qed.

(** [trim] leaves nothing exactly of a blank text. *)
Lemma trim_empty (s : string) :
  trim s = EmptyString <-> Spec.blank s.
Proof.
  unfold trim. rewrite trimEnd_empty. split.
  - intros H. apply trimStart_empty.
    destruct (trimStart s) as [| c t] eqn:E; [reflexivity |].
    apply blank_cons in H. destruct H as [H _].
    rewrite (trimStart_head s c t E) in H. discriminate.
  - intros H. apply trimStart_empty in H. rewrite H. apply blank_empty.
Qed.

(** [indexOf] locates: it gives the first position of the needle. *)
Lemma indexOf_located (s needle : string) (i : nat) :
  needle <> EmptyString ->
  indexOf s needle = Z.of_nat i <-> Spec.locatedAt needle s i.
Proof.
  intros Hne. unfold indexOf, Spec.locatedAt, Spec.occursAt.
  destruct (String.index 0 needle s) as [m |] eqn:E.
  - split.
    + intros H. assert (m = i) by lia. subst m. split.
      * exact (String.index_correct1 _ _ _ _ E).
      * intros k Hk.
        apply (String.index_correct2 _ _ _ _ E); [apply Nat.le_0_l | exact Hk].
    + intros [Hocc Hfirst]. f_equal.
      destruct (Nat.lt_trichotomy m i) as [Hlt | [Heq | Hgt]];
        [| exact Heq |].
      * exfalso. apply (Hfirst m Hlt).
        exact (String.index_correct1 _ _ _ _ E).
      * exfalso.
        apply (String.index_correct2 _ _ _ _ E i);
          [apply Nat.le_0_l | exact Hgt | exact Hocc].
  - split.
    + lia.
    + intros [Hocc _]. exfalso.
      apply (String.index_correct3 _ i _ _ E Hne (Nat.le_0_l i) Hocc).
Qed.

Lemma indexOf_found (s needle : string) :
  needle <> EmptyString ->
  indexOf s needle <> -1 ->
  exists i, indexOf s needle = Z.of_nat i /\ Spec.locatedAt needle s i.
Proof.
  intros Hne H. unfold indexOf in H.
  destruct (String.index 0 needle s) as [m |] eqn:E; [| congruence].
  exists m. assert (Hm : indexOf s needle = Z.of_nat m)
    by (unfold indexOf; now rewrite E).
  split; [exact Hm | now apply indexOf_located].
Qed.

Lemma includes_contains (s needle : string) :
  needle <> EmptyString ->
  includes s needle = true <-> Spec.contains needle s.
Proof.
  intros Hne. unfold includes, Spec.contains, Spec.occursAt.
  destruct (String.index 0 needle s) as [m |] eqn:E.
  - split; [| reflexivity]. intros _. exists m.
    exact (String.index_correct1 _ _ _ _ E).
  - split; [discriminate |]. intros [i Hi]. exfalso.
    apply (String.index_correct3 _ i _ _ E Hne (Nat.le_0_l i) Hi).
Qed.

End StringFacts.

(** The code's check is the specification's. *)
Lemma isValidSvg_spec (text : string) :
  isValidSvg text = true <-> Spec.isValidDocument text.
Proof.
  unfold isValidSvg, Spec.isValidDocument.
  set (lower := JSString.toLowerCase text).
  destruct ((String.length text =? 0)%nat
            || String.eqb (JSString.trim text) EmptyString) eqn:Hblank.
  - assert (Hb : Spec.blank text).
    { apply orb_true_iff in Hblank. destruct Hblank as [H | H].
      - apply Nat.eqb_eq in H. destruct text; [apply blank_empty |].
        discriminate.
      - apply String.eqb_eq in H. now apply trim_empty. }
    split; [discriminate | intros [H _]; contradiction].
  - apply orb_false_iff in Hblank. destruct Hblank as [_ Htrim].
    apply String.eqb_neq in Htrim.
    assert (Hnb : ~ Spec.blank text)
      by (intros Hb; apply Htrim; now apply trim_empty).
    rewrite !andb_true_iff, !orb_true_iff, !negb_true_iff, !Z.eqb_neq,
      Z.ltb_lt.
    rewrite !includes_contains by discriminate.
    split.
    + intros [[[Hstart Hend] Hlt] Hattr].
      split; [exact Hnb |]. split; [| tauto].
      destruct (indexOf_found lower "<svg" ltac:(discriminate) Hstart)
        as [i [Ei Hi]].
      destruct (indexOf_found lower "</svg>" ltac:(discriminate) Hend)
        as [j [Ej Hj]].
      exists i, j. split; [exact Hi |]. split; [exact Hj | lia].
    + intros [_ [[i [j [Hi [Hj Hlt]]]] Hattr]].
      apply indexOf_located in Hi; [| discriminate].
      apply indexOf_located in Hj; [| discriminate].
      fold lower in Hi, Hj. rewrite Hi, Hj.
      repeat split; try lia. tauto.
Qed.

(** C7. [isValidSvg] is false on an empty or blank text; otherwise it is
    true exactly when, with letter case ignored, the opening root tag is
    located strictly before the closing root tag and one of [viewbox],
    [width], [height] occurs; without any of the three it is false; and
    the four documents of the specification get the stated answers. *)
Theorem isValidSvg_rule (text : string) :
  (Spec.blank text -> isValidSvg text = false) /\
  (isValidSvg text = true <-> Spec.isValidDocument text) /\
  (~ Spec.contains "viewbox" (JSString.toLowerCase text) ->
   ~ Spec.contains "width" (JSString.toLowerCase text) ->
   ~ Spec.contains "height" (JSString.toLowerCase text) ->
   isValidSvg text = false) /\
  isValidSvg "" = false /\
  isValidSvg "<svg viewBox='0 0 10 10'></svg>" = true /\
  isValidSvg "<svg></svg><notclosed" = false /\
  isValidSvg "<svg></svg>" = false.
Proof.
  split; [| split; [apply isValidSvg_spec | split; [| repeat split]]].
  - intros Hb. destruct (isValidSvg text) eqn:E; [| reflexivity].
    apply isValidSvg_spec in E. destruct E as [Hnb _]. contradiction.
  - intros H1 H2 H3. destruct (isValidSvg text) eqn:E; [| reflexivity].
    apply isValidSvg_spec in E. destruct E as [_ [_ [H | [H | H]]]];
      contradiction.
Qed.

Lemma isValidSvg_rule_witness :
  isValidSvg (" " ++ JSString.newline) = false /\
  Spec.isValidDocument "<SVG Width='4'></SVG>" /\
  isValidSvg "</svg><svg></svg>" = false.
Proof.
  split; [| split].
  - apply (proj1 (isValidSvg_rule (" " ++ JSString.newline))).
    intros c [<- | [<- | []]]; reflexivity.
  - apply (proj1 (proj2 (isValidSvg_rule "<SVG Width='4'></SVG>"))).
    reflexivity.
  - apply (proj1 (proj2 (proj2 (isValidSvg_rule "</svg><svg></svg>")))).
    + intros [i Hi]. unfold Spec.occursAt in Hi. simpl in Hi.
      do 18 (destruct i as [| i]; [discriminate |]). discriminate.
    + intros [i Hi]. unfold Spec.occursAt in Hi. simpl in Hi.
      do 18 (destruct i as [| i]; [discriminate |]). discriminate.
    + intros [i Hi]. unfold Spec.occursAt in Hi. simpl in Hi.
      do 18 (destruct i as [| i]; [discriminate |]). discriminate.
Defined.

(** Located means first: a closing root tag ahead of the first opening
    one rejects the text, whatever follows; letter case does not
    matter; leading white space does not. *)
Example isValidSvg_located :
  isValidSvg "</svg><svg width='1'></svg>" = false /\
  isValidSvg "<SVG HEIGHT='1'></SVG>" = true /\
  isValidSvg "  <svg width='1'></svg>" = true.
Proof. split; [| split]; vm_compute; reflexivity. Qed.

(* ================================================================== *)
(** ** The raster fallback document *)

Section PatternFacts.

Import Raster.
Local Open Scope string_scope.

Lemma append_assoc (a b c : string) : (a ++ b) ++ c = a ++ (b ++ c).
Proof. induction a as [| x a IH]; simpl; [reflexivity | now rewrite IH]. Qed.

Lemma stripPrefix_spec (p s r : string) :
  stripPrefix p s = Some r <-> s = p ++ r.
Proof.
  revert s. induction p as [| a p IH]; intros s; simpl.
  - split; [intros [= ->]; reflexivity | intros ->; reflexivity].
  - destruct s as [| b s]; [split; discriminate |].
    destruct (Ascii.eqb_spec a b) as [-> | Hne].
    + rewrite IH. split; [intros ->; reflexivity | intros [= ->]; reflexivity].
    + split; [discriminate | intros [= -> _]; contradiction].
Qed.

Lemma afterFirstGt_sound (s r : string) :
  afterFirstGt s = Some r ->
  exists tag, s = tag ++ ">" ++ r /\
              forall c, In c (list_ascii_of_string tag) -> c <> ">"%char.
Proof.
  revert r. induction s as [| a s IH]; intros r; simpl; [discriminate |].
  destruct (Ascii.eqb_spec a ">") as [-> | Hne].
  - intros [= ->]. exists "". split; [reflexivity | intros c []].
  - intros H. destruct (IH r H) as [tag [-> Htag]].
    exists (String a tag). split; [reflexivity |].
    intros c [<- | Hc]; [exact Hne | now apply Htag].
Qed.

Lemma afterFirstGt_complete (tag r : string) :
  (forall c, In c (list_ascii_of_string tag) -> c <> ">"%char) ->
  afterFirstGt (tag ++ ">" ++ r) = Some r.
Proof.
  induction tag as [| a tag IH]; intros Htag; simpl.
  - reflexivity.
  - destruct (Ascii.eqb_spec a ">") as [-> | Hne].
    + exfalso. apply (Htag ">"%char); [now left | reflexivity].
    + apply IH. intros c Hc. apply Htag. now right.
Qed.

Lemma beforeLastClose_sound (s c : string) :
  beforeLastClose s = Some c -> exists post, s = c ++ "</svg>" ++ post.
Proof.
  revert c. induction s as [| a s IH]; intros c; [discriminate |].
  cbn [beforeLastClose].
  destruct (beforeLastClose s) as [r |] eqn:E.
  - intros [= <-]. destruct (IH r eq_refl) as [post ->].
    exists post. reflexivity.
  - destruct (stripPrefix "</svg>" (String a s)) as [post |] eqn:P;
      [| discriminate].
    intros [= <-]. exists post. apply stripPrefix_spec in P. exact P.
Qed.

Lemma beforeLastClose_complete (c post : string) :
  beforeLastClose (c ++ "</svg>" ++ post) <> None.
Proof.
  induction c as [| a c IH].
  - change ("" ++ "</svg>" ++ post) with (String "<" ("/svg>" ++ post)).
    cbn [beforeLastClose].
    destruct (beforeLastClose ("/svg>" ++ post)); [discriminate |].
    assert (P : stripPrefix "</svg>" (String "<" ("/svg>" ++ post))
                = Some post) by (apply stripPrefix_spec; reflexivity).
    rewrite P. discriminate.
  - change (String a c ++ "</svg>" ++ post)
      with (String a (c ++ "</svg>" ++ post)).
    cbn [beforeLastClose].
    destruct (beforeLastClose (c ++ "</svg>" ++ post)); [discriminate |].
    contradiction.
Qed.

Lemma matchHere_sound (s c : string) :
  matchHere s = Some c ->
  exists tag post,
    s = "<svg" ++ tag ++ ">" ++ c ++ "</svg>" ++ post /\
    forall x, In x (list_ascii_of_string tag) -> x <> ">"%char.
Proof.
  unfold matchHere.
  destruct (stripPrefix "<svg" s) as [rest |] eqn:P; [| discriminate].
  destruct (afterFirstGt rest) as [inner |] eqn:A; [| discriminate].
  intros B. apply stripPrefix_spec in P.
  destruct (afterFirstGt_sound _ _ A) as [tag [-> Htag]].
  destruct (beforeLastClose_sound _ _ B) as [post ->].
  exists tag, post. split; [exact P | exact Htag].
Qed.

Lemma matchHere_complete (tag c post : string) :
  (forall x, In x (list_ascii_of_string tag) -> x <> ">"%char) ->
  matchHere ("<svg" ++ tag ++ ">" ++ c ++ "</svg>" ++ post) <> None.
Proof.
  intros Htag. unfold matchHere.
  assert (P : stripPrefix "<svg"
                ("<svg" ++ tag ++ ">" ++ c ++ "</svg>" ++ post)
              = Some (tag ++ ">" ++ c ++ "</svg>" ++ post))
    by (apply stripPrefix_spec; reflexivity).
  rewrite P, (afterFirstGt_complete tag _ Htag).
  apply beforeLastClose_complete.
Qed.

(** What [matchContent] returns is a group the pattern matches with. *)
Lemma matchContent_sound (s c : string) :
  matchContent s = Some c -> Spec.rootTagMatch s c.
Proof.
  induction s as [| a s IH].
  - cbn [matchContent]. destruct (matchHere "") eqn:M; [| discriminate].
    intros [= <-]. destruct (matchHere_sound _ _ M) as [tag [post [E Htag]]].
    exists "", tag, post. split; [exact E | exact Htag].
  - cbn [matchContent]. destruct (matchHere (String a s)) as [m |] eqn:M.
    + intros [= <-].
      destruct (matchHere_sound _ _ M) as [tag [post [E Htag]]].
      exists "", tag, post. split; [exact E | exact Htag].
    + intros H. destruct (IH H) as [pre [tag [post [-> Htag]]]].
      exists (String a pre), tag, post. split; [reflexivity | exact Htag].
Qed.

(** [matchContent] fails only where the pattern matches nowhere. *)
Lemma matchContent_complete (s : string) :
  matchContent s = None -> forall c, ~ Spec.rootTagMatch s c.
Proof.
  intros H c [pre [tag [post [-> Htag]]]]. revert H.
  induction pre as [| a pre IH].
  - change ("" ++ "<svg" ++ tag ++ ">" ++ c ++ "</svg>" ++ post)
      with ("<svg" ++ tag ++ ">" ++ c ++ "</svg>" ++ post).
    assert (M := matchHere_complete tag c post Htag).
    change ("<svg" ++ tag ++ ">" ++ c ++ "</svg>" ++ post)
      with (String "<" ("svg" ++ tag ++ ">" ++ c ++ "</svg>" ++ post))
      in M |- *.
    cbn [matchContent].
    destruct (matchHere
      (String "<" ("svg" ++ tag ++ ">" ++ c ++ "</svg>" ++ post)));
      [discriminate | contradiction].
  - change (String a pre ++ "<svg" ++ tag ++ ">" ++ c ++ "</svg>" ++ post)
      with (String a (pre ++ "<svg" ++ tag ++ ">" ++ c ++ "</svg>" ++ post)).
    cbn [matchContent].
    destruct (matchHere
      (String a (pre ++ "<svg" ++ tag ++ ">" ++ c ++ "</svg>" ++ post)));
      [discriminate | exact IH].
Qed.

End PatternFacts.

(** C8. For an image of [imageWidth] by [imageHeight] pixels (unsigned
    32-bit sizes) the rebuilt document has width [imageWidth + 16] and
    height [imageHeight + 16], in its size attributes and in its view
    box; it holds a rectangle from the origin over that whole size, with
    corner radii [8] and white fill, and a group translated by [(8, 8)]
    that holds the content: a group the root-tag pattern matches the
    traced document with, and the empty text when the pattern matches
    nowhere. *)
Theorem convertBitmapToSvg_document (imageWidth imageHeight : N)
    (svg : string) :
  (imageWidth < 2 ^ 32)%N -> (imageHeight < 2 ^ 32)%N ->
  exists content : string,
    Raster.convertBitmapToSvg imageWidth imageHeight svg
    = ("<svg width=" ++ JSString.dquote
         ++ JSString.ofNumber (imageWidth + 16) ++ JSString.dquote
       ++ " height=" ++ JSString.dquote
         ++ JSString.ofNumber (imageHeight + 16) ++ JSString.dquote
       ++ " viewBox=" ++ JSString.dquote ++ "0 0 "
         ++ JSString.ofNumber (imageWidth + 16) ++ " "
         ++ JSString.ofNumber (imageHeight + 16) ++ JSString.dquote
       ++ ">" ++ JSString.newline
       ++ "  <rect x=" ++ JSString.dquote ++ "0" ++ JSString.dquote
       ++ " y=" ++ JSString.dquote ++ "0" ++ JSString.dquote
       ++ " width=" ++ JSString.dquote
         ++ JSString.ofNumber (imageWidth + 16) ++ JSString.dquote
       ++ " height=" ++ JSString.dquote
         ++ JSString.ofNumber (imageHeight + 16) ++ JSString.dquote
       ++ " rx=" ++ JSString.dquote ++ "8" ++ JSString.dquote
       ++ " ry=" ++ JSString.dquote ++ "8" ++ JSString.dquote
       ++ " fill=" ++ JSString.dquote ++ "white" ++ JSString.dquote
       ++ "/>" ++ JSString.newline
       ++ "  <g transform=" ++ JSString.dquote ++ "translate(8,8)"
         ++ JSString.dquote ++ ">" ++ JSString.newline
       ++ "    " ++ content ++ JSString.newline
       ++ "  </g>" ++ JSString.newline
       ++ "</svg>")%string
    /\ ((exists c, Spec.rootTagMatch svg c) -> Spec.rootTagMatch svg content)
    /\ ((forall c, ~ Spec.rootTagMatch svg c) -> content = EmptyString).
Proof.
  intros _ _.
  exists (match Raster.matchContent svg with
          | Some c => c
          | None => EmptyString
          end).
  split; [| split].
  - cbv [Raster.convertBitmapToSvg Raster.attr Raster.padding
         Raster.cornerRadius].
    change (8 * 2)%N with 16%N.
    change (JSString.ofNumber 8) with "8"%string.
    repeat rewrite append_assoc. reflexivity.
  - intros [c Hc]. destruct (Raster.matchContent svg) as [m |] eqn:M.
    + now apply matchContent_sound.
    + exfalso. exact (matchContent_complete svg M c Hc).
  - intros Hnone. destruct (Raster.matchContent svg) as [m |] eqn:M.
    + exfalso. exact (Hnone m (matchContent_sound svg m M)).
    + reflexivity.
Qed.

Lemma convertBitmapToSvg_document_witness :
  exists content : string,
    Raster.convertBitmapToSvg 100 50 "<svg><path d='M0 0'/></svg>"
    = ("<svg width=" ++ JSString.dquote ++ "116" ++ JSString.dquote
       ++ " height=" ++ JSString.dquote ++ "66" ++ JSString.dquote
       ++ " viewBox=" ++ JSString.dquote ++ "0 0 116 66" ++ JSString.dquote
       ++ ">" ++ JSString.newline
       ++ "  <rect x=" ++ JSString.dquote ++ "0" ++ JSString.dquote
       ++ " y=" ++ JSString.dquote ++ "0" ++ JSString.dquote
       ++ " width=" ++ JSString.dquote ++ "116" ++ JSString.dquote
       ++ " height=" ++ JSString.dquote ++ "66" ++ JSString.dquote
       ++ " rx=" ++ JSString.dquote ++ "8" ++ JSString.dquote
       ++ " ry=" ++ JSString.dquote ++ "8" ++ JSString.dquote
       ++ " fill=" ++ JSString.dquote ++ "white" ++ JSString.dquote
       ++ "/>" ++ JSString.newline
       ++ "  <g transform=" ++ JSString.dquote ++ "translate(8,8)"
         ++ JSString.dquote ++ ">" ++ JSString.newline
       ++ "    " ++ content ++ JSString.newline
       ++ "  </g>" ++ JSString.newline
       ++ "</svg>")%string.
Proof.
  destruct (convertBitmapToSvg_document 100 50 "<svg><path d='M0 0'/></svg>")
    as [content [E _]]; [reflexivity | reflexivity |].
  exists content. exact E.
Defined.

(** The two documents of the specification's example: the traced
    content, and the empty content where the pattern does not match. *)
Example convertBitmapToSvg_content :
  Raster.matchContent "<svg><path d='M0 0'/></svg>"
  = Some "<path d='M0 0'/>"%string /\
  Raster.matchContent "<svg><path d='M0 0'/>" = None.
Proof. split; reflexivity. Qed.

(* ================================================================== *)
(** ** More on the index conversions *)

Section MoreArrayFacts.

Context {A : Type}.

Lemma findIndexFrom_In (p : A -> bool) (l : list A) (i : Z) (x : A) :
  In x l -> p x = true -> 0 <= i -> i <= JS.findIndexFrom p l i.
Proof.
  revert i. induction l as [| a t IH]; intros i Hin Hp Hi; [destruct Hin |].
  simpl. destruct (p a) eqn:Ea; [lia |].
  destruct Hin as [-> | Hin]; [congruence |].
  specialize (IH (i + 1) Hin Hp ltac:(lia)). lia.
Qed.

(** Before a later position there are more elements that satisfy [p]
    than before an earlier position that satisfies [p] itself. *)
Lemma count_before_increases (p : A -> bool) (l : list A) (k m : nat)
      (x : A) :
  nth_error l k = Some x -> p x = true -> (k < m)%nat ->
  (List.length (filter p (firstn k l))
   < List.length (filter p (firstn m l)))%nat.
Proof.
  revert k m. induction l as [| a t IH]; intros k m Hk Hp Hlt.
  - destruct k; discriminate.
  - destruct m as [| m']; [lia |]. destruct k as [| k']; simpl in *.
    + injection Hk as ->. rewrite Hp. simpl. lia.
    + specialize (IH k' m' Hk Hp ltac:(lia)).
      destruct (p a); simpl; lia.
Qed.

Lemma nth_error_firstn_In (l : list A) (k m : nat) (x : A) :
  nth_error l k = Some x -> (k < m)%nat -> In x (firstn m l).
Proof.
  revert k m. induction l as [| a t IH]; intros k m Hk Hlt.
  - destruct k; discriminate.
  - destruct m as [| m']; [lia |]. destruct k as [| k']; simpl in *.
    + injection Hk as ->. now left.
    + right. apply (IH k' m' Hk). lia.
Qed.

Lemma NoDup_firstn_not_In (l : list A) (k m : nat) (x : A) :
  NoDup l -> nth_error l k = Some x -> (m <= k)%nat -> ~ In x (firstn m l).
Proof.
  intros Hnd Hk Hle Hin.
  destruct (In_nth_error _ _ Hin) as [j Hj].
  assert (Hjm : (j < m)%nat).
  { assert (j < List.length (firstn m l))%nat
      by (apply nth_error_Some; congruence).
    rewrite length_firstn in H. lia. }
  rewrite nth_error_firstn in Hj.
  destruct (Nat.ltb_spec j m); [| lia].
  assert (j = k); [| lia].
  apply (proj1 (NoDup_nth_error l) Hnd).
  - apply nth_error_Some. congruence.
  - congruence.
Qed.

Lemma NoDup_firstn (l : list A) (m : nat) : NoDup l -> NoDup (firstn m l).
Proof.
  intros H. rewrite <- (firstn_skipn m l) in H.
  exact (NoDup_app_remove_r _ _ H).
Qed.

End MoreArrayFacts.

Section MoreVisibleView.

Variable st : State.

(** The visible index of the full index of [v] is [v]. *)
Lemma toShownIndex_toSvgIndex (v : Z) (r : ref) :
  NoDup (svgShapes st) ->
  JS.at_index (shownShapes st) v = Some r ->
  toShownIndex st (toSvgIndex st v) = v.
Proof.
  intros Hnd Hv.
  destruct (toSvgIndex_visible st v r Hnd Hv) as [k [Hk E]].
  rewrite E. unfold toShownIndex. rewrite at_index_of_nat, Hk.
  destruct (at_index_Some _ _ _ Hv) as [Hrange Hnth].
  rewrite (findIndex_identity _ _ _ (NoDup_shownShapes st Hnd) Hnth). lia.
Qed.

(** What [toSvgIndex] gives for a position of the visible list is a row
    that holds the object at that position. *)
Lemma toSvgIndex_row (v : Z) (r : ref) :
  JS.at_index (shownShapes st) v = Some r ->
  JS.at_index (svgShapes st) (toSvgIndex st v) = Some r.
Proof.
  intros Hv. destruct (at_index_Some _ _ _ Hv) as [_ Hnth].
  assert (Hin : In r (svgShapes st)).
  { apply nth_error_In in Hnth. now apply In_shownShapes in Hnth. }
  unfold toSvgIndex. rewrite Hv.
  set (p := fun s : ref => strictEq s (Some r)).
  assert (Hge : 0 <= JS.findIndex p (svgShapes st)).
  { apply (findIndexFrom_In p (svgShapes st) 0 r Hin); [| lia].
    apply Nat.eqb_refl. }
  assert (Hne : JS.findIndex p (svgShapes st) <> -1) by lia.
  destruct (findIndex_found p _ Hne) as [x [Hx Hpx]].
  rewrite at_index_nonneg by exact Hge. rewrite Hx. f_equal.
  now apply Nat.eqb_eq in Hpx.
Qed.

End MoreVisibleView.

(** X1. In a list of pairwise distinct shape objects, the visible index
    of a visible row is the number of visible rows before it, so
    visible indices keep the order of the rows: of two visible rows the
    earlier has the smaller visible index, and both are positions of
    the visible list. *)
Theorem visible_index_counts_and_orders (st : State) (f g : Z)
    (rf rg : ref) :
  NoDup (svgShapes st) ->
  JS.at_index (svgShapes st) f = Some rf ->
  JS.at_index (svgShapes st) g = Some rg ->
  JS.truthy (depthOf st rf) = true ->
  JS.truthy (depthOf st rg) = true ->
  f < g ->
  toShownIndex st f
  = Z.of_nat (List.length (filter (fun i => JS.truthy (depthOf st i))
                             (firstn (Z.to_nat f) (svgShapes st)))) /\
  0 <= toShownIndex st f < toShownIndex st g /\
  toShownIndex st g < Z.of_nat (List.length (shownShapes st)).
Proof.
  intros Hnd Hf Hg Hvf Hvg Hlt.
  destruct (toShownIndex_visible st f rf Hnd Hf Hvf) as [cf [Hcf [_ Ef]]].
  destruct (toShownIndex_visible st g rg Hnd Hg Hvg) as [cg [Hcg [Hng Eg]]].
  destruct (at_index_Some _ _ _ Hf) as [Hrf Hnf].
  destruct (at_index_Some _ _ _ Hg) as [Hrg _].
  assert (Hcount := count_before_increases
            (fun i => JS.truthy (depthOf st i)) (svgShapes st)
            (Z.to_nat f) (Z.to_nat g) rf Hnf Hvf ltac:(lia)).
  assert (cg < List.length (shownShapes st))%nat
    by (apply nth_error_Some; congruence).
  rewrite Ef, Eg. subst cf cg. split; [reflexivity | lia].
Qed.

Lemma visible_index_counts_and_orders_witness :
  toShownIndex exampleState 0 = 0 /\
  0 <= toShownIndex exampleState 0 < toShownIndex exampleState 2 /\
  toShownIndex exampleState 2 < 2.
Proof.
  apply (visible_index_counts_and_orders exampleState 0 2 0%nat 2%nat);
    try reflexivity.
  apply (mountSVG_NoDup exampleLoader).
Defined.

(** X2. [toSvgIndex] gives [-1] exactly for what is no position of the
    visible list; for a position of the visible list it gives a row of
    the full list that holds the same object, a shape with a truthy
    depth: a selection write never stores a hidden row. *)
Theorem selection_write_stores_visible_row (st : State) (v : Z) :
  (JS.at_index (shownShapes st) v = None -> toSvgIndex st v = -1) /\
  (forall r, JS.at_index (shownShapes st) v = Some r ->
             0 <= toSvgIndex st v < Z.of_nat (List.length (svgShapes st)) /\
             JS.at_index (svgShapes st) (toSvgIndex st v) = Some r /\
             JS.truthy (depthOf st r) = true) /\
  (isDefaultSvg st = false -> isExporting st = false ->
   forall i, selectedShapeIndex (selectedShownShapeIndex_set st v) = Some i ->
             i = -1 \/
             exists r, JS.at_index (svgShapes st) i = Some r /\
                       JS.truthy (depthOf st r) = true).
Proof.
  assert (Hrow : forall r, JS.at_index (shownShapes st) v = Some r ->
             0 <= toSvgIndex st v < Z.of_nat (List.length (svgShapes st)) /\
             JS.at_index (svgShapes st) (toSvgIndex st v) = Some r /\
             JS.truthy (depthOf st r) = true).
  { intros r Hv. assert (Hrow := toSvgIndex_row st v r Hv).
    split; [exact (proj1 (at_index_Some _ _ _ Hrow)) |].
    split; [exact Hrow |].
    destruct (at_index_Some _ _ _ Hv) as [_ Hnth].
    apply nth_error_In in Hnth. now apply In_shownShapes in Hnth. }
  split; [apply toSvgIndex_outside |]. split; [exact Hrow |].
  intros Hd He i. unfold selectedShownShapeIndex_set. rewrite Hd, He. simpl.
  intros [= <-].
  destruct (JS.at_index (shownShapes st) v) as [r |] eqn:Hv.
  - right. exists r. destruct (Hrow r eq_refl) as [_ [H1 H2]]. now split.
  - left. now apply toSvgIndex_outside.
Qed.

Lemma selection_write_stores_visible_row_witness :
  toSvgIndex exampleState 5 = -1 /\
  JS.at_index (svgShapes exampleState) (toSvgIndex exampleState 1)
  = Some 2%nat /\
  (selectedShapeIndex (selectedShownShapeIndex_set exampleState 1) = Some 2 ->
   2 = -1 \/
   exists r, JS.at_index (svgShapes exampleState) 2 = Some r /\
             JS.truthy (depthOf exampleState r) = true).
Proof.
  destruct (selection_write_stores_visible_row exampleState 5) as [H5 _].
  destruct (selection_write_stores_visible_row exampleState 1)
    as [_ [H1 Hset]].
  split; [apply H5; reflexivity |].
  split; [apply (H1 2%nat); reflexivity |].
  apply (Hset eq_refl eq_refl 2).
Defined.

(** X3. A selection write followed by a selection read gives the index
    back: with no document lock, no export and no input in focus, in a
    list of pairwise distinct objects, writing a position of the
    visible list and reading gives that position; writing anything else
    and reading gives none. *)
Theorem selection_write_read_round_trip (st : State) (v : Z) :
  isDefaultSvg st = false -> isExporting st = false ->
  editingInputIndex st = None ->
  (forall r, NoDup (svgShapes st) ->
             JS.at_index (shownShapes st) v = Some r ->
             selectedShownShapeIndex_get (selectedShownShapeIndex_set st v)
             = Some v) /\
  (JS.at_index (shownShapes st) v = None ->
   selectedShownShapeIndex_get (selectedShownShapeIndex_set st v) = None).
Proof.
  intros Hd He Hed.
  unfold selectedShownShapeIndex_set. rewrite Hd, He. simpl.
  unfold selectedShownShapeIndex_get. simpl. rewrite He, Hed.
  change (toShownIndex
            (with_selectedShapeIndex st (Some (toSvgIndex st v)))
            (toSvgIndex st v))
    with (toShownIndex st (toSvgIndex st v)).
  split.
  - intros r Hnd Hv. rewrite (toShownIndex_toSvgIndex st v r Hnd Hv).
    destruct (at_index_Some _ _ _ Hv) as [Hrange _].
    destruct (Z.eqb_spec v (-1)); [lia | reflexivity].
  - intros Hv. rewrite (toSvgIndex_outside st v Hv).
    rewrite (toShownIndex_outside st (-1)); [reflexivity |].
    apply at_index_outside. lia.
Qed.

Lemma selection_write_read_round_trip_witness :
  selectedShownShapeIndex_get (selectedShownShapeIndex_set exampleState 1)
  = Some 1 /\
  selectedShownShapeIndex_get (selectedShownShapeIndex_set exampleState 2)
  = None.
Proof.
  destruct (selection_write_read_round_trip exampleState 1
              eq_refl eq_refl eq_refl) as [Hin _].
  destruct (selection_write_read_round_trip exampleState 2
              eq_refl eq_refl eq_refl) as [_ Hout].
  split.
  - apply (Hin 2%nat); [apply (mountSVG_NoDup exampleLoader) | reflexivity].
  - apply Hout. reflexivity.
Defined.

(** X4. A mesh click and the focus it asks for select the clicked mesh:
    when [handleMeshClick] resolves a position [v] of the visible list
    to the row [i] and that row's input takes the focus, the selection
    read is [v], whatever row is hovered. *)
Theorem mesh_click_focus_selects_clicked (st : State) (v i : Z) (r : ref) :
  NoDup (svgShapes st) ->
  JS.at_index (shownShapes st) v = Some r ->
  handleMeshClick st v = Some i ->
  JS.at_index (svgShapes st) i = Some r /\
  selectedShownShapeIndex_get (focus st i) = Some v.
Proof.
  intros Hnd Hv. unfold handleMeshClick.
  destruct (isDefaultSvg st || isExporting st) eqn:G; [discriminate |].
  intros [= <-]. apply orb_false_iff in G. destruct G as [_ He].
  split; [now apply toSvgIndex_row |].
  unfold selectedShownShapeIndex_get, focus. simpl. rewrite He.
  change (toShownIndex
            (with_editingInputIndex st (Some (toSvgIndex st v)))
            (toSvgIndex st v))
    with (toShownIndex st (toSvgIndex st v)).
  rewrite (toShownIndex_toSvgIndex st v r Hnd Hv).
  destruct (at_index_Some _ _ _ Hv) as [Hrange _].
  destruct (Z.eqb_spec v (-1)); [lia | reflexivity].
Qed.

Lemma mesh_click_focus_selects_clicked_witness :
  JS.at_index (svgShapes exampleState) 2 = Some 2%nat /\
  selectedShownShapeIndex_get (focus (mouseenter exampleState 0) 2) = Some 1.
Proof.
  apply (mesh_click_focus_selects_clicked (mouseenter exampleState 0) 1 2
           2%nat).
  - apply (mountSVG_NoDup exampleLoader).
  - reflexivity.
  - reflexivity.
Defined.

(* ================================================================== *)
(** ** Edits of a row and the visible view *)

Section FilterFacts.

Lemma filter_both {A : Type} (p q : A -> bool) (l : list A) :
  filter q (filter p l) = filter (fun x => q x && p x) l.
Proof.
  induction l as [| a t IH]; simpl; [reflexivity |].
  destruct (p a); simpl; rewrite ?andb_false_r, ?andb_true_r;
    [destruct (q a) |]; now rewrite IH.
Qed.

(** Dropping one element that satisfied [p] from a list of distinct
    elements makes the filtered list one shorter. *)
Lemma filter_without_one (p : ref -> bool) (l : list ref) (r : ref) :
  NoDup l -> In r l -> p r = true ->
  S (List.length (filter (fun x => negb (Nat.eqb x r) && p x) l))
  = List.length (filter p l).
Proof.
  induction l as [| a t IH]; intros Hnd Hin Hp; [destruct Hin |].
  inversion Hnd as [| ? ? Hnot Hnd']; subst. simpl.
  destruct (Nat.eqb_spec a r) as [-> | Hne].
  - simpl. rewrite Hp. simpl. f_equal. f_equal.
    apply filter_ext_in. intros x Hx.
    destruct (Nat.eqb_spec x r) as [-> | _]; [contradiction | reflexivity].
  - destruct Hin as [-> | Hin]; [contradiction |]. simpl.
    destruct (p a); simpl; rewrite <- (IH Hnd' Hin Hp); reflexivity.
Qed.

End FilterFacts.

Section DepthWrites.

Variable st : State.
Variable f : Z.
Variable r : ref.
Hypothesis row : JS.at_index (svgShapes st) f = Some r.

Lemma svgShapes_writeDepth (d : float) :
  svgShapes (writeDepth st f d) = svgShapes st.
Proof. unfold writeDepth. now rewrite row. Qed.

Lemma depthOf_writeDepth (d : float) (x : ref) :
  depthOf (writeDepth st f d) x = if Nat.eqb x r then d else depthOf st x.
Proof.
  unfold writeDepth, depthOf. rewrite row. simpl.
  destruct (Nat.eqb x r); reflexivity.
Qed.

Lemma shownShapes_writeDepth (d : float) :
  shownShapes (writeDepth st f d)
  = filter (fun x => if Nat.eqb x r then JS.truthy d
                     else JS.truthy (depthOf st x)) (svgShapes st).
Proof.
  unfold shownShapes. rewrite svgShapes_writeDepth.
  apply filter_ext. intros x. rewrite depthOf_writeDepth.
  destruct (Nat.eqb x r); reflexivity.
Qed.

Lemma shownShapes_hidden (d : float) :
  JS.truthy d = false ->
  shownShapes (writeDepth st f d)
  = filter (fun x => negb (Nat.eqb x r) && JS.truthy (depthOf st x))
      (svgShapes st).
Proof.
  intros Hd. rewrite shownShapes_writeDepth. apply filter_ext. intros x.
  destruct (Nat.eqb x r); [exact Hd | reflexivity].
Qed.

(** The visible index of another visible row after the row [f] was
    hidden: the visible rows before it, the hidden one not counted. *)
Lemma toShownIndex_after_hiding (d : float) (g : Z) (rg : ref) :
  NoDup (svgShapes st) ->
  JS.truthy d = false ->
  JS.at_index (svgShapes st) g = Some rg -> g <> f ->
  JS.truthy (depthOf st rg) = true ->
  toShownIndex (writeDepth st f d) g
  = Z.of_nat (List.length
      (filter (fun x => negb (Nat.eqb x r) && JS.truthy (depthOf st x))
         (firstn (Z.to_nat g) (svgShapes st)))).
Proof.
  intros Hnd Hd Hg Hgf Hvg.
  assert (Hne : rg <> r).
  { intros ->. destruct (at_index_Some _ _ _ Hg) as [Hrg Hng].
    destruct (at_index_Some _ _ _ row) as [Hrf Hnf].
    assert (Z.to_nat g = Z.to_nat f); [| lia].
    apply (proj1 (NoDup_nth_error (svgShapes st)) Hnd).
    - apply nth_error_Some. congruence.
    - congruence. }
  assert (Hnd' : NoDup (svgShapes (writeDepth st f d)))
    by (now rewrite svgShapes_writeDepth).
  assert (Hg' : JS.at_index (svgShapes (writeDepth st f d)) g = Some rg)
    by (now rewrite svgShapes_writeDepth).
  assert (Hvg' : JS.truthy (depthOf (writeDepth st f d) rg) = true).
  { rewrite depthOf_writeDepth.
    destruct (Nat.eqb_spec rg r); [contradiction | exact Hvg]. }
  destruct (toShownIndex_visible _ g rg Hnd' Hg' Hvg') as [c [Hc [_ E]]].
  rewrite E, Hc, svgShapes_writeDepth. do 2 f_equal.
  apply filter_ext. intros x. rewrite depthOf_writeDepth.
  destruct (Nat.eqb x r); [exact Hd | reflexivity].
Qed.

End DepthWrites.

(** X5. Hiding a visible row: in a list of pairwise distinct objects,
    a falsy depth written to a visible row [f] takes exactly that shape
    out of the visible list, which gets one shorter; the row has no
    visible index any more, every visible row before it keeps its
    visible index and every visible row after it gets the index one
    below. *)
Theorem hiding_a_row_shifts_later_indices (st : State) (f : Z) (r : ref)
    (d : float) :
  NoDup (svgShapes st) ->
  JS.at_index (svgShapes st) f = Some r ->
  JS.truthy (depthOf st r) = true ->
  JS.truthy d = false ->
  shownShapes (writeDepth st f d)
  = filter (fun x => negb (Nat.eqb x r)) (shownShapes st) /\
  S (List.length (shownShapes (writeDepth st f d)))
  = List.length (shownShapes st) /\
  toShownIndex (writeDepth st f d) f = -1 /\
  (forall g rg,
      JS.at_index (svgShapes st) g = Some rg ->
      JS.truthy (depthOf st rg) = true ->
      (g < f -> toShownIndex (writeDepth st f d) g = toShownIndex st g) /\
      (f < g -> toShownIndex (writeDepth st f d) g = toShownIndex st g - 1)).
Proof.
  intros Hnd Hf Hvis Hd.
  destruct (at_index_Some _ _ _ Hf) as [Hrf Hnf].
  assert (Hin : In r (svgShapes st)) by (now apply nth_error_In in Hnf).
  split; [| split; [| split]].
  - rewrite (shownShapes_hidden st f r Hf d Hd). unfold shownShapes.
    now rewrite filter_both.
  - rewrite (shownShapes_hidden st f r Hf d Hd). unfold shownShapes.
    now apply filter_without_one.
  - apply (toShownIndex_hidden _ f r).
    + now rewrite (svgShapes_writeDepth st f r Hf).
    + rewrite (depthOf_writeDepth st f r Hf), Nat.eqb_refl. exact Hd.
  - intros g rg Hg Hvg. destruct (at_index_Some _ _ _ Hg) as [Hrg Hng].
    destruct (toShownIndex_visible st g rg Hnd Hg Hvg) as [c [Hc [_ E]]].
    split; intros Hlt.
    + rewrite (toShownIndex_after_hiding st f r Hf d g rg Hnd Hd Hg
                 ltac:(lia) Hvg), E, Hc.
      do 2 f_equal. apply filter_ext_in. intros x Hx.
      destruct (Nat.eqb_spec x r) as [-> | _]; [| reflexivity].
      exfalso. revert Hx.
      apply (NoDup_firstn_not_In _ (Z.to_nat f) _ _ Hnd Hnf). lia.
    + rewrite (toShownIndex_after_hiding st f r Hf d g rg Hnd Hd Hg
                 ltac:(lia) Hvg), E, Hc.
      assert (Hfg : (Z.to_nat f < Z.to_nat g)%nat) by lia.
      assert (Hone := filter_without_one
                (fun x => JS.truthy (depthOf st x))
                (firstn (Z.to_nat g) (svgShapes st)) r
                (NoDup_firstn _ _ Hnd)
                (nth_error_firstn_In _ (Z.to_nat f) _ _ Hnf Hfg)
                Hvis).
      lia.
Qed.

Lemma hiding_a_row_shifts_later_indices_witness :
  shownShapes (writeDepth exampleState 0 0%float) = [2%nat] /\
  toShownIndex (writeDepth exampleState 0 0%float) 0 = -1 /\
  toShownIndex (writeDepth exampleState 0 0%float) 2
  = toShownIndex exampleState 2 - 1.
Proof.
  destruct (hiding_a_row_shifts_later_indices exampleState 0 0%nat 0%float
              (mountSVG_NoDup exampleLoader initial _ None)
              eq_refl eq_refl eq_refl) as [Hview [_ [Hself Hothers]]].
  split; [exact Hview |]. split; [exact Hself |].
  apply (proj2 (Hothers 2 2%nat eq_refl eq_refl)). reflexivity.
Defined.

(** X6. The visible list depends on a depth only through its being
    truthy: a depth written to a row that is as truthy as the depth it
    replaces leaves the visible list and both index conversions as they
    are; so does hiding a row and giving it any truthy depth again. *)
Theorem same_truthiness_keeps_indices (st : State) (f : Z) (r : ref)
    (d : float) :
  JS.at_index (svgShapes st) f = Some r ->
  JS.truthy d = JS.truthy (depthOf st r) ->
  shownShapes (writeDepth st f d) = shownShapes st /\
  (forall g, toShownIndex (writeDepth st f d) g = toShownIndex st g) /\
  (forall v, toSvgIndex (writeDepth st f d) v = toSvgIndex st v) /\
  (forall d0, shownShapes (writeDepth (writeDepth st f d0) f d)
              = shownShapes st).
Proof.
  intros Hf Hd.
  assert (Hview : shownShapes (writeDepth st f d) = shownShapes st).
  { rewrite (shownShapes_writeDepth st f r Hf). unfold shownShapes.
    apply filter_ext. intros x.
    destruct (Nat.eqb_spec x r) as [-> | _]; [exact Hd | reflexivity]. }
  split; [exact Hview |]. split; [| split].
  - intros g. unfold toShownIndex.
    now rewrite Hview, (svgShapes_writeDepth st f r Hf).
  - intros v. unfold toSvgIndex.
    now rewrite Hview, (svgShapes_writeDepth st f r Hf).
  - intros d0.
    assert (Hf0 : JS.at_index (svgShapes (writeDepth st f d0)) f = Some r)
      by (now rewrite (svgShapes_writeDepth st f r Hf)).
    rewrite (shownShapes_writeDepth _ f r Hf0).
    rewrite (svgShapes_writeDepth st f r Hf). unfold shownShapes.
    apply filter_ext. intros x.
    rewrite (depthOf_writeDepth st f r Hf).
    destruct (Nat.eqb_spec x r) as [-> | _]; [exact Hd | reflexivity].
Qed.

Lemma same_truthiness_keeps_indices_witness :
  shownShapes (writeDepth exampleState 2 7.5%float) = shownShapes exampleState
  /\ shownShapes (writeDepth (writeDepth exampleState 2 0%float) 2 7.5%float)
     = shownShapes exampleState.
Proof.
  destruct (same_truthiness_keeps_indices exampleState 2 2%nat 7.5%float
              eq_refl eq_refl) as [H1 [_ [_ H2]]].
  split; [exact H1 | exact (H2 0%float)].
Defined.

(** The selection read looks at the list, the visible list, the two
    indices and the export flag only. *)
Lemma selection_read_ext (st st' : State) :
  svgShapes st' = svgShapes st ->
  shownShapes st' = shownShapes st ->
  selectedShapeIndex st' = selectedShapeIndex st ->
  editingInputIndex st' = editingInputIndex st ->
  isExporting st' = isExporting st ->
  selectedShownShapeIndex_get st' = selectedShownShapeIndex_get st.
Proof.
  intros Hl Hs Hsel Hed Hex.
  unfold selectedShownShapeIndex_get, formatSelectedShapeIndex, toShownIndex.
  now rewrite Hl, Hs, Hsel, Hed, Hex.
Qed.

(** X7. Edits of a row's color and start offset do not touch the
    visible view: a color change of a row of the list, and a start
    offset written to any row, leave the list, every depth, the visible
    list and the selection read as they are; a color change fails
    exactly on what is no row of the list. *)
Theorem color_and_offset_edits_keep_view (st : State) (index : Z) :
  (forall c, handleColorChange st index c = None <->
             JS.at_index (svgShapes st) index = None) /\
  (forall c st', handleColorChange st index c = Some st' ->
     svgShapes st' = svgShapes st /\
     (forall r, depthOf st' r = depthOf st r) /\
     shownShapes st' = shownShapes st /\
     selectedShownShapeIndex_get st' = selectedShownShapeIndex_get st) /\
  (forall x,
     svgShapes (setStartZ st index x) = svgShapes st /\
     (forall r, depthOf (setStartZ st index x) r = depthOf st r) /\
     shownShapes (setStartZ st index x) = shownShapes st /\
     selectedShownShapeIndex_get (setStartZ st index x)
     = selectedShownShapeIndex_get st).
Proof.
  assert (Hshown : forall st', svgShapes st' = svgShapes st ->
            (forall r, depthOf st' r = depthOf st r) ->
            shownShapes st' = shownShapes st).
  { intros st' Hl Hd. unfold shownShapes. rewrite Hl.
    apply filter_ext. intros r. now rewrite Hd. }
  split; [| split].
  - intros c. unfold handleColorChange.
    destruct (JS.at_index (svgShapes st) index); split; congruence.
  - intros c st'. unfold handleColorChange.
    destruct (JS.at_index (svgShapes st) index) as [r |]; [| discriminate].
    intros [= <-].
    assert (Hd : forall r', depthOf (update_shape st r
                   (mkShape c (depth (store st r)) (startZ (store st r)))) r'
                 = depthOf st r').
    { intros r'. unfold depthOf. simpl.
      destruct (Nat.eqb_spec r' r) as [-> | _]; reflexivity. }
    split; [reflexivity |]. split; [exact Hd |].
    split; [now apply Hshown |].
    apply selection_read_ext; try reflexivity. now apply Hshown.
  - intros x.
    assert (Hl : svgShapes (setStartZ st index x) = svgShapes st).
    { unfold setStartZ. destruct (JS.at_index (svgShapes st) index);
        reflexivity. }
    assert (Hd : forall r, depthOf (setStartZ st index x) r = depthOf st r).
    { intros r. unfold setStartZ, depthOf.
      destruct (JS.at_index (svgShapes st) index) as [r0 |]; [| reflexivity].
      simpl. destruct (Nat.eqb_spec r r0) as [-> | _]; reflexivity. }
    split; [exact Hl |]. split; [exact Hd |].
    split; [now apply Hshown |].
    apply selection_read_ext; try (now apply Hshown).
    + exact Hl.
    + unfold setStartZ. destruct (JS.at_index (svgShapes st) index);
        reflexivity.
    + unfold setStartZ. destruct (JS.at_index (svgShapes st) index);
        reflexivity.
    + unfold setStartZ. destruct (JS.at_index (svgShapes st) index);
        reflexivity.
Qed.

Lemma color_and_offset_edits_keep_view_witness :
  handleColorChange exampleState 3 255 = None /\
  (forall st', handleColorChange (mouseenter exampleState 2) 2 255 = Some st'
               -> selectedShownShapeIndex_get st' = Some 1).
Proof.
  destruct (color_and_offset_edits_keep_view exampleState 3) as [Hnone _].
  destruct (color_and_offset_edits_keep_view (mouseenter exampleState 2) 2)
    as [_ [Hsome _]].
  split; [apply Hnone; reflexivity |].
  intros st' H. destruct (Hsome 255 st' H) as [_ [_ [_ Hget]]].
  rewrite Hget. reflexivity.
Defined.

(* ================================================================== *)
(** ** The rows of the template *)

(** X8. At most one row has the highlight border, and outside an export
    the selection read is the visible index of the highlighted row: in
    a list of pairwise distinct objects its position within the visible
    view, none when that row is hidden. *)
Theorem row_highlight_matches_selection (st : State) (i : Z) :
  rowHighlighted st i = true ->
  (forall j, rowHighlighted st j = true -> j = i) /\
  (isExporting st = false ->
   selectedShownShapeIndex_get st = formatSelectedShapeIndex st (Some i)) /\
  (isExporting st = false -> NoDup (svgShapes st) ->
   selectedShownShapeIndex_get st = Spec.toVisibleIndex st i).
Proof.
  unfold rowHighlighted. intros Hi.
  assert (Hget : isExporting st = false ->
            selectedShownShapeIndex_get st
            = formatSelectedShapeIndex st (Some i)).
  { intros He. unfold selectedShownShapeIndex_get. rewrite He.
    destruct (editingInputIndex st) as [e |].
    - apply Z.eqb_eq in Hi. now subst e.
    - destruct (selectedShapeIndex st) as [s |]; [| discriminate].
      apply Z.eqb_eq in Hi. now subst s. }
  split; [| split].
  - intros j Hj. destruct (editingInputIndex st) as [e |].
    + apply Z.eqb_eq in Hi, Hj. congruence.
    + destruct (selectedShapeIndex st) as [s |]; [| discriminate].
      apply Z.eqb_eq in Hi, Hj. congruence.
  - exact Hget.
  - intros He Hnd. rewrite (Hget He).
    now apply formatSelectedShapeIndex_position.
Qed.

Lemma row_highlight_matches_selection_witness :
  selectedShownShapeIndex_get (focus (mouseenter exampleState 0) 2) = Some 1
  /\ selectedShownShapeIndex_get (mouseenter exampleState 1) = None.
Proof.
  split.
  - rewrite (proj1 (proj2 (row_highlight_matches_selection
               (focus (mouseenter exampleState 0) 2) 2 eq_refl)) eq_refl).
    reflexivity.
  - rewrite (proj2 (proj2 (row_highlight_matches_selection
               (mouseenter exampleState 1) 1 eq_refl)) eq_refl
               (mountSVG_NoDup exampleLoader initial _ None)).
    reflexivity.
Defined.

(** X9. A dimmed row (depth [=== 0]) is never in the visible list; a
    row whose depth is a number is dimmed exactly when it is not in the
    visible list; a row whose depth is [NaN] is not in the visible list
    and not dimmed either. *)
Theorem dimmed_rows_are_hidden (st : State) (r : ref) :
  In r (svgShapes st) ->
  (rowDimmed st r = true -> ~ In r (shownShapes st)) /\
  (PrimFloat.is_nan (depthOf st r) = false ->
   (rowDimmed st r = true <-> ~ In r (shownShapes st))) /\
  (PrimFloat.is_nan (depthOf st r) = true ->
   rowDimmed st r = false /\ ~ In r (shownShapes st)).
Proof.
  intros Hin. unfold rowDimmed.
  assert (Hdim : PrimFloat.eqb (depthOf st r) PrimFloat.zero = true ->
                 ~ In r (shownShapes st)).
  { intros Hz. rewrite In_shownShapes. intros [_ H].
    rewrite (zero_falsy _ Hz) in H. discriminate. }
  split; [exact Hdim |]. split.
  - intros Hnum. split; [exact Hdim |].
    intros Hnot.
    destruct (PrimFloat.eqb (depthOf st r) PrimFloat.zero) eqn:Hz;
      [reflexivity |].
    exfalso. apply Hnot. apply In_shownShapes. split; [exact Hin |].
    unfold JS.truthy. now rewrite Hnum, Hz.
  - intros Hnan. split.
    + rewrite FloatAxioms.eqb_spec, (is_nan_true _ Hnan). reflexivity.
    + rewrite In_shownShapes. intros [_ H]. unfold JS.truthy in H.
      rewrite Hnan in H. discriminate.
Qed.

Lemma dimmed_rows_are_hidden_witness :
  ~ In 1%nat (shownShapes exampleState) /\
  (rowDimmed exampleState 2%nat = true <-> ~ In 2%nat (shownShapes exampleState))
  /\ rowDimmed (writeDepth exampleState 0 PrimFloat.nan) 0%nat = false.
Proof.
  assert (H3 : forall k, (k < 3)%nat -> In k (svgShapes exampleState)).
  { intros k Hk. simpl. lia. }
  assert (H3' : In 0%nat (svgShapes (writeDepth exampleState 0 PrimFloat.nan))).
  { simpl. lia. }
  split; [| split].
  - apply (proj1 (dimmed_rows_are_hidden exampleState 1%nat
                    (H3 1%nat ltac:(lia)))). reflexivity.
  - apply (proj1 (proj2 (dimmed_rows_are_hidden exampleState 2%nat
                           (H3 2%nat ltac:(lia))))). reflexivity.
  - apply (proj2 (proj2 (dimmed_rows_are_hidden
                           (writeDepth exampleState 0 PrimFloat.nan) 0%nat
                           H3'))). reflexivity.
Defined.

(* ================================================================== *)
(** ** Closing, pasting and the default document *)

(** X10. Closing and the default document, however the fetch is
    interleaved with other handlers.  When the synchronous part of
    [handleClose] has run, the fetch still pending, no document counts
    as loaded, the shape list is empty, nothing is selected, the file
    name and the typed code are empty and the scale target is the
    default.  Whenever the fetch later resumes [loadDefaultSvg], in
    whatever state the component then is: a failed fetch changes
    nothing; a fetched document is shown as the default document, on
    which no document counts as loaded, the file name is empty and
    every selection write and mesh click is ignored, while the hovered
    index, the editing index, the export flag and the typed code stay
    as they were at that moment. *)
Theorem close_then_default_load
    (load : string -> LoaderOptions -> list ShapeWithColor)
    (st st' : State) :
  (isLoaded (handleClose_reset st) = false /\
   svgShapes (handleClose_reset st) = [] /\
   selectedShownShapeIndex_get (handleClose_reset st) = None /\
   fileName (handleClose_reset st) = EmptyString /\
   svgCode (handleClose_reset st) = EmptyString /\
   size (handleClose_reset st) = defaultSize) /\
  loadDefaultSvg load st' None = st' /\
  forall svgData,
    isDefaultSvg (loadDefaultSvg load st' (Some svgData)) = true /\
    isLoaded (loadDefaultSvg load st' (Some svgData)) = false /\
    fileName (loadDefaultSvg load st' (Some svgData)) = EmptyString /\
    (forall v,
        selectedShownShapeIndex_set (loadDefaultSvg load st' (Some svgData)) v
        = loadDefaultSvg load st' (Some svgData) /\
        handleMeshClick (loadDefaultSvg load st' (Some svgData)) v = None) /\
    selectedShapeIndex (loadDefaultSvg load st' (Some svgData))
    = selectedShapeIndex st' /\
    editingInputIndex (loadDefaultSvg load st' (Some svgData))
    = editingInputIndex st' /\
    isExporting (loadDefaultSvg load st' (Some svgData)) = isExporting st' /\
    svgCode (loadDefaultSvg load st' (Some svgData)) = svgCode st'.
Proof.
  split; [repeat split |]. split; [reflexivity |].
  intros svgData.
  split; [reflexivity |]. split.
  - unfold isLoaded. simpl isDefaultSvg. simpl negb at 2.
    apply andb_false_r.
  - split; [reflexivity |]. split; [| repeat split].
    intros v. split; reflexivity.
Qed.

(** A paste and a hover while the fetch of a close is pending stay in
    effect when the default document arrives. *)
Example close_with_events_in_between :
  selectedShownShapeIndex_get
    (loadDefaultSvg exampleLoader
       (mouseenter
          (fst (pasteSvg exampleLoader (handleClose_reset exampleState)
                  (Some "<svg width='1'></svg>"%string)))
          2)
       (Some "<svg width='2'></svg>"%string))
  = Some 1.
Proof. vm_compute. reflexivity. Qed.

(** X11. [pasteSvg] and the paste listener.  A paste is accepted
    exactly when there is a text and [isValidSvg] accepts it (so never
    an empty or a blank one); a refused paste changes nothing; an
    accepted one names the file and mounts the text.  The listener
    prevents the event's default only for an accepted paste outside an
    input or a text area, and a paste it does not accept changes
    nothing. *)
Theorem paste_accepts_exactly_valid
    (load : string -> LoaderOptions -> list ShapeWithColor)
    (st : State) (paste : option string) (event : PasteEvent) :
  (snd (pasteSvg load st paste) = true <->
   exists text, paste = Some text /\ isValidSvg text = true) /\
  (snd (pasteSvg load st paste) = true ->
   exists text, paste = Some text /\ ~ Spec.blank text /\
     fst (pasteSvg load st paste)
     = mountSVG load (with_fileName st "Pasted file") text None) /\
  (snd (pasteSvg load st paste) = false -> fst (pasteSvg load st paste) = st)
  /\
  (snd (documentPaste load st event) = true ->
   targetTag event <> "INPUT"%string /\
   targetTag event <> "TEXTAREA"%string /\
   exists text, clipboardText event = Some text /\
                isValidSvg text = true) /\
  (snd (documentPaste load st event) = false ->
   fst (documentPaste load st event) = st).
Proof.
  assert (Hempty : forall text, isValidSvg text = true ->
                     (String.length text =? 0)%nat = false).
  { intros [| c t] H; [discriminate | reflexivity]. }
  assert (Hiff : forall p, snd (pasteSvg load st p) = true <->
            exists text, p = Some text /\ isValidSvg text = true).
  { intros p. unfold pasteSvg. destruct p as [text |].
    - destruct (isValidSvg text) eqn:V.
      + rewrite (Hempty text V). simpl. split; [| reflexivity].
        intros _. now exists text.
      + rewrite andb_false_r. simpl. split; [discriminate |].
        intros [t [[= <-] H]]. congruence.
    - simpl. split; [discriminate | intros [t [H _]]; discriminate]. }
  assert (Hkeep : forall p, snd (pasteSvg load st p) = false ->
            fst (pasteSvg load st p) = st).
  { intros p. unfold pasteSvg. destruct p as [text |]; [| reflexivity].
    destruct (negb (String.length text =? 0)%nat && isValidSvg text);
      [discriminate | reflexivity]. }
  split; [apply Hiff |]. split; [| split; [apply Hkeep |]].
  - intros H. apply Hiff in H. destruct H as [text [-> V]].
    exists text. split; [reflexivity |]. split.
    + apply isValidSvg_spec in V. exact (proj1 V).
    + unfold pasteSvg. now rewrite (Hempty text V), V.
  - unfold documentPaste.
    destruct (String.eqb_spec (targetTag event) "INPUT") as [E1 | N1];
      simpl orb; cbv iota.
    + split; [discriminate | reflexivity].
    + destruct (String.eqb_spec (targetTag event) "TEXTAREA") as [E2 | N2].
      * split; [discriminate | reflexivity].
      * split; [| apply Hkeep].
        intros H. split; [exact N1 |]. split; [exact N2 |]. now apply Hiff.
Qed.

Lemma paste_accepts_exactly_valid_witness :
  snd (pasteSvg exampleLoader initial (Some "<svg height='2'></svg>"%string))
  = true /\
  fst (pasteSvg exampleLoader exampleState (Some " "%string)) = exampleState
  /\ fst (documentPaste exampleLoader exampleState
            (mkPaste "INPUT" (Some "<svg height='2'></svg>"%string)))
     = exampleState.
Proof.
  split; [| split].
  - apply (proj1 (paste_accepts_exactly_valid exampleLoader initial
                    (Some "<svg height='2'></svg>"%string)
                    (mkPaste "BODY" None))).
    eexists. split; reflexivity.
  - apply (proj1 (proj2 (proj2 (paste_accepts_exactly_valid exampleLoader
                    exampleState (Some " "%string) (mkPaste "BODY" None))))).
    reflexivity.
  - apply (proj2 (proj2 (proj2 (proj2 (paste_accepts_exactly_valid
                    exampleLoader exampleState None
                    (mkPaste "INPUT"
                       (Some "<svg height='2'></svg>"%string))))))).
    reflexivity.
Defined.

Section DefaultShapes.

Lemma nth_error_combine_seq {A : Type} (l : list A) (k n : nat) (x : A) :
  nth_error l k = Some x ->
  nth_error (combine (seq n (List.length l)) l) k = Some ((n + k)%nat, x).
Proof.
  revert k n. induction l as [| a t IH]; intros k n Hk.
  - destruct k; discriminate.
  - destruct k as [| k']; simpl in *.
    + injection Hk as ->. now rewrite Nat.add_0_r.
    + rewrite (IH k' (S n) Hk). do 2 f_equal. lia.
Qed.

Lemma nullish_at_index {A : Type} (l : list A) (k : nat) (d : A) :
  nullish (JS.at_index l (Z.of_nat k)) d = nth k l d.
Proof.
  rewrite at_index_of_nat. unfold nullish.
  destruct (nth_error l k) eqn:E.
  - symmetry. now apply nth_error_nth.
  - symmetry. apply nth_overflow. now apply nth_error_None.
Qed.

End DefaultShapes.

(** X12. The callback of the default document keeps the number and the
    colors of the shapes; the shape at position [k] gets the [k]-th
    listed depth, and depth [2] beyond the nine listed ones; the first
    shape starts at [0] and every other shape, also beyond the two
    listed offsets, at [2.1], the depth of the first. *)
Theorem default_shapes_layout (shapes : list ShapeWithColor) (i : Z) :
  List.length (defaultCustomShapes shapes i) = List.length shapes /\
  forall k item,
    nth_error shapes k = Some item ->
    exists item',
      nth_error (defaultCustomShapes shapes i) k = Some item' /\
      color item' = color item /\
      depth item' = nth k defaultSvgDepthList 2%float /\
      ((9 <= k)%nat -> depth item' = 2%float) /\
      startZ item' = (if (k =? 0)%nat then 0%float else 2.1%float) /\
      ((1 <= k)%nat -> startZ item' = nth 0 defaultSvgDepthList 2%float).
Proof.
  unfold defaultCustomShapes. split.
  - rewrite length_map, length_combine, length_seq. apply Nat.min_id.
  - intros k item Hk. eexists. split.
    + rewrite nth_error_map, (nth_error_combine_seq shapes k 0 item Hk).
      reflexivity.
    + cbn [fst snd color depth startZ Nat.add].
      rewrite !nullish_at_index.
      split; [reflexivity |]. split; [reflexivity |]. split; [| split].
      * intros H9. apply nth_overflow. simpl. exact H9.
      * destruct k as [| [| k']]; try reflexivity.
        rewrite nth_overflow by (simpl; lia). reflexivity.
      * intros H1. destruct k as [| [| k']]; [lia | reflexivity |].
        rewrite nth_overflow by (simpl; lia). reflexivity.
Qed.

Lemma default_shapes_layout_witness :
  exists item',
    nth_error (defaultCustomShapes (exampleLoader "" (mkOptions 2 0 None)) 0)
      2 = Some item' /\
    depth item' = 1%float /\ startZ item' = 2.1%float.
Proof.
  destruct (default_shapes_layout (exampleLoader "" (mkOptions 2 0 None)) 0)
    as [_ H].
  destruct (H 2%nat _ eq_refl) as [item' [Hn [_ [Hd [_ [Hz _]]]]]].
  exists item'. split; [exact Hn |]. split; [exact Hd | exact Hz].
Defined.

(** X13. Whatever has happened to the component, its shape list holds
    pairwise distinct objects, and so for every position [v] of the
    visible list the visible index of the full index of [v] is [v], and
    the full index of [v] is a row that holds the shape at [v]. *)
Theorem reached_states_round_trip
    (load : string -> LoaderOptions -> list ShapeWithColor)
    (events : list Event) :
  NoDup (svgShapes (run load events)) /\
  forall v r,
    JS.at_index (shownShapes (run load events)) v = Some r ->
    toShownIndex (run load events) (toSvgIndex (run load events) v) = v /\
    JS.at_index (svgShapes (run load events))
      (toSvgIndex (run load events) v) = Some r.
Proof.
  assert (Hinv : distinctShapes (run load events)).
  { unfold run. induction events as [| ev events IH] using rev_ind.
    - apply distinctShapes_initial.
    - rewrite fold_left_app. simpl. now apply distinctShapes_handle. }
  destruct Hinv as [Hnd _]. split; [exact Hnd |].
  intros v r Hv. split.
  - now apply (toShownIndex_toSvgIndex _ v r).
  - now apply toSvgIndex_row.
Qed.

(* ================================================================== *)
(** ** More on the document check and the raster fallback *)

Section CaseFacts.

Import JSString.

Lemma lowerChar_idempotent (c : ascii) : lowerChar (lowerChar c) = lowerChar c.
Proof. destruct c as [[] [] [] [] [] [] [] []]; reflexivity. Qed.

Lemma isWhiteSpace_lowerChar (c : ascii) :
  isWhiteSpace (lowerChar c) = isWhiteSpace c.
Proof. destruct c as [[] [] [] [] [] [] [] []]; reflexivity. Qed.

Lemma toLowerCase_idempotent (s : string) :
  toLowerCase (toLowerCase s) = toLowerCase s.
Proof.
  induction s as [| c t IH]; simpl; [reflexivity |].
  now rewrite lowerChar_idempotent, IH.
Qed.

Lemma toLowerCase_app (a b : string) :
  toLowerCase (a ++ b) = (toLowerCase a ++ toLowerCase b)%string.
Proof. induction a as [| c t IH]; simpl; [reflexivity | now rewrite IH]. Qed.

Lemma blank_toLowerCase (s : string) :
  Spec.blank (toLowerCase s) <-> Spec.blank s.
Proof.
  induction s as [| c t IH]; simpl.
  - tauto.
  - rewrite !blank_cons, isWhiteSpace_lowerChar, IH. tauto.
Qed.

End CaseFacts.

(** X14. The document check ignores letter case: two texts with the
    same lower-case form get the same answer; in particular a text and
    its lower-case form do. *)
Theorem isValidSvg_ignores_case (a b : string) :
  JSString.toLowerCase a = JSString.toLowerCase b ->
  isValidSvg a = isValidSvg b /\
  isValidSvg (JSString.toLowerCase a) = isValidSvg a.
Proof.
  assert (H : forall x y, JSString.toLowerCase x = JSString.toLowerCase y ->
                          isValidSvg x = true -> isValidSvg y = true).
  { intros x y E Hx. apply isValidSvg_spec in Hx. apply isValidSvg_spec.
    unfold Spec.isValidDocument in *. rewrite <- E.
    destruct Hx as [Hnb Hrest]. split; [| exact Hrest].
    intros Hb. apply Hnb. apply blank_toLowerCase. rewrite E.
    now apply blank_toLowerCase. }
  assert (Heq : forall x y, JSString.toLowerCase x = JSString.toLowerCase y ->
                            isValidSvg x = isValidSvg y).
  { intros x y E.
    destruct (isValidSvg x) eqn:Hx, (isValidSvg y) eqn:Hy; try reflexivity.
    - rewrite (H x y E Hx) in Hy. discriminate.
    - rewrite (H y x (eq_sym E) Hy) in Hx. discriminate. }
  intros E. split; [now apply Heq |].
  apply Heq. apply toLowerCase_idempotent.
Qed.

Lemma isValidSvg_ignores_case_witness :
  isValidSvg "<SVG ViewBox='0 0 1 1'></Svg>"
  = isValidSvg "<svg viewbox='0 0 1 1'></svg>".
Proof.
  apply (proj1 (isValidSvg_ignores_case "<SVG ViewBox='0 0 1 1'></Svg>"
                  "<svg viewbox='0 0 1 1'></svg>" eq_refl)).
Defined.

Section Occurrences.

Local Open Scope string_scope.

Lemma substring_app_r (a s : string) (i n : nat) :
  String.substring (String.length a + i) n (a ++ s) = String.substring i n s.
Proof. induction a as [| c t IH]; simpl; [reflexivity | exact IH]. Qed.

Lemma contains_app_r (needle a s : string) :
  Spec.contains needle s -> Spec.contains needle (a ++ s).
Proof.
  intros [i Hi]. exists (String.length a + i)%nat.
  unfold Spec.occursAt in *. now rewrite substring_app_r.
Qed.

Lemma contains_indexOf (needle s : string) :
  needle <> "" -> Spec.contains needle s ->
  exists j, Spec.locatedAt needle s j.
Proof.
  intros Hne Hc. apply includes_contains in Hc; [| exact Hne].
  assert (Hi : JSString.indexOf s needle <> -1).
  { unfold JSString.includes in Hc. unfold JSString.indexOf.
    destruct (String.index 0 needle s); [lia | discriminate]. }
  destruct (indexOf_found s needle Hne Hi) as [j [_ Hj]]. now exists j.
Qed.

End Occurrences.

(** X15. The document the raster fallback builds always passes the
    document check, whatever the image size and whatever the tracer
    returned; so every document [handleFileSelected] mounts for a
    bitmap file does. *)
Theorem raster_document_is_valid (file : File) :
  isBitmap file = true ->
  (forall w h svg, isValidSvg (Raster.convertBitmapToSvg w h svg) = true) /\
  isValidSvg (selectedDocument file) = true.
Proof.
  intros Hbitmap.
  assert (Hall : forall w h svg,
            isValidSvg (Raster.convertBitmapToSvg w h svg) = true).
  { intros w h svg. apply isValidSvg_spec.
    unfold Spec.isValidDocument.
    split; [| split].
    - intros Hb. apply blank_cons in Hb. destruct Hb as [Hb _].
      discriminate.
    - assert (Hclose : Spec.contains "</svg>"
                (JSString.toLowerCase (Raster.convertBitmapToSvg w h svg))).
      { unfold Raster.convertBitmapToSvg.
        rewrite !toLowerCase_app.
        repeat apply contains_app_r. exists 0%nat. reflexivity. }
      assert (Hne : "</svg>"%string <> EmptyString) by discriminate.
      destruct (contains_indexOf _ _ Hne Hclose) as [j Hj].
      exists 0%nat, j. split; [| split].
      + split; [reflexivity | intros k Hk; lia].
      + exact Hj.
      + destruct j as [| j']; [| lia].
        destruct Hj as [Hocc _]. unfold Spec.occursAt in Hocc.
        assert (Hhead : String.substring 0 (String.length "</svg>")
                  (JSString.toLowerCase (Raster.convertBitmapToSvg w h svg))
                = "<svg w"%string) by reflexivity.
        rewrite Hhead in Hocc. discriminate.
    - right. left. exists 5%nat. reflexivity. }
  split; [exact Hall |].
  unfold selectedDocument. rewrite Hbitmap. apply Hall.
Qed.

Lemma raster_document_is_valid_witness :
  isValidSvg
    (selectedDocument (mkFile "image/png" "" 100 50 "not a document")) = true.
Proof.
  apply (proj2 (raster_document_is_valid
                  (mkFile "image/png" "" 100 50 "not a document") eq_refl)).
Defined.

Section Greedy.

Import Raster.
Local Open Scope string_scope.

Lemma length_append (a b : string) :
  String.length (a ++ b) = (String.length a + String.length b)%nat.
Proof. induction a as [| c t IH]; simpl; [reflexivity | now rewrite IH]. Qed.

(** The captured group runs to the last closing tag: no closing tag
    stands further right. *)
Lemma beforeLastClose_longest (s c : string) :
  beforeLastClose s = Some c ->
  forall c' post', s = c' ++ "</svg>" ++ post' ->
                   (String.length c' <= String.length c)%nat.
Proof.
  revert c. induction s as [| a s IH]; intros c; [discriminate |].
  cbn [beforeLastClose].
  destruct (beforeLastClose s) as [r |] eqn:E.
  - intros [= <-] c' post' Hs. destruct c' as [| x c'']; [simpl; lia |].
    injection Hs as _ Hs. simpl. apply le_n_S. now apply (IH r eq_refl c'' post').
  - destruct (stripPrefix "</svg>" (String a s)); [| discriminate].
    intros [= <-] c' post' Hs. destruct c' as [| x c'']; [simpl; lia |].
    injection Hs as _ Hs. exfalso.
    apply (beforeLastClose_complete c'' post'). rewrite Hs in E. exact E.
Qed.

Lemma matchHere_longest (s c : string) :
  matchHere s = Some c ->
  forall tag' c' post',
    (forall x, In x (list_ascii_of_string tag') -> x <> ">"%char) ->
    s = "<svg" ++ tag' ++ ">" ++ c' ++ "</svg>" ++ post' ->
    (String.length c' <= String.length c)%nat.
Proof.
  unfold matchHere. intros H tag' c' post' Htag Hs.
  assert (P : stripPrefix "<svg" s
              = Some (tag' ++ ">" ++ c' ++ "</svg>" ++ post'))
    by (apply stripPrefix_spec; exact Hs).
  rewrite P, (afterFirstGt_complete tag' _ Htag) in H.
  exact (beforeLastClose_longest _ _ H c' post' eq_refl).
Qed.

End Greedy.

(** X16. The pattern match of the raster fallback is leftmost and
    greedy: it fails exactly when the root-tag pattern matches nowhere;
    what it returns is the group of a match whose opening tag is the
    first one that can start a match, and no match from that opening
    tag has a longer group (the group runs to the last closing tag). *)
Theorem root_pattern_match_is_leftmost_longest (svg : string) :
  (Raster.matchContent svg = None <-> forall c, ~ Spec.rootTagMatch svg c) /\
  forall c, Raster.matchContent svg = Some c ->
    exists pre tag post,
      svg = (pre ++ "<svg" ++ tag ++ ">" ++ c ++ "</svg>" ++ post)%string /\
      (forall x, In x (list_ascii_of_string tag) -> x <> ">"%char) /\
      forall pre' tag' c' post',
        (forall x, In x (list_ascii_of_string tag') -> x <> ">"%char) ->
        svg = (pre' ++ "<svg" ++ tag' ++ ">" ++ c' ++ "</svg>" ++ post')%string
        -> (String.length pre <= String.length pre')%nat /\
           (String.length pre' = String.length pre ->
            (String.length c' <= String.length c)%nat).
Proof.
  split.
  - split; [apply matchContent_complete |].
    intros Hnone. destruct (Raster.matchContent svg) as [c |] eqn:M;
      [| reflexivity].
    exfalso. exact (Hnone c (matchContent_sound svg c M)).
  - induction svg as [| a s IH]; intros c.
    + cbn [Raster.matchContent]. simpl. discriminate.
    + cbn [Raster.matchContent].
      destruct (Raster.matchHere (String a s)) as [m |] eqn:M.
      * intros [= <-].
        destruct (matchHere_sound _ _ M) as [tag [post [E Htag]]].
        exists EmptyString, tag, post.
        split; [exact E |]. split; [exact Htag |].
        intros pre' tag' c' post' Htag' Hs. split; [simpl; lia |].
        intros Hlen. destruct pre' as [| x p]; [| discriminate].
        exact (matchHere_longest _ _ M tag' c' post' Htag' Hs).
      * intros Hrest.
        destruct (IH c Hrest) as [pre [tag [post [E [Htag Hbest]]]]].
        exists (String a pre), tag, post.
        split; [rewrite E at 1; reflexivity |]. split; [exact Htag |].
        intros pre' tag' c' post' Htag' Hs.
        destruct pre' as [| x p].
        -- exfalso. apply (matchHere_complete tag' c' post' Htag').
           rewrite Hs in M. exact M.
        -- injection Hs as _ Hs.
           destruct (Hbest p tag' c' post' Htag' Hs) as [H1 H2].
           simpl. split; [lia |]. intros Hl. apply H2. lia.
Qed.

(** The match on a traced document that holds a document of its own. *)
Example root_pattern_match_nested :
  Raster.matchContent "x<svg a='>'><svg></svg></svg></svg>"
  = Some "'><svg></svg></svg>"%string.
Proof. vm_compute. reflexivity. Qed.

(* ================================================================== *)
(** ** Hidden rows and the distance between the two indices *)

Lemma length_filter_le {A : Type} (p : A -> bool) (l : list A) :
  (List.length (filter p l) <= List.length l)%nat.
Proof.
  induction l as [| a t IH]; simpl; [lia |].
  destruct (p a); simpl; lia.
Qed.

(** X17. Hidden rows only push full indices up.  In a list of pairwise
    distinct objects the visible index of a visible row is at most its
    full index, and the full index of a position of the visible list is
    at least that position; where no row is hidden both conversions
    give every index of the list back unchanged. *)
Theorem visible_index_at_most_full_index (st : State) :
  NoDup (svgShapes st) ->
  (forall f r, JS.at_index (svgShapes st) f = Some r ->
               JS.truthy (depthOf st r) = true ->
               0 <= toShownIndex st f <= f) /\
  (forall v r, JS.at_index (shownShapes st) v = Some r ->
               v <= toSvgIndex st v) /\
  ((forall r, In r (svgShapes st) -> JS.truthy (depthOf st r) = true) ->
   forall i r, JS.at_index (svgShapes st) i = Some r ->
               toShownIndex st i = i /\ toSvgIndex st i = i).
Proof.
  intros Hnd.
  assert (Hle : forall f r, JS.at_index (svgShapes st) f = Some r ->
                  JS.truthy (depthOf st r) = true ->
                  0 <= toShownIndex st f <= f).
  { intros f r Hf Hvis.
    destruct (toShownIndex_visible st f r Hnd Hf Hvis) as [c [Hc [_ E]]].
    destruct (at_index_Some _ _ _ Hf) as [Hrange _].
    assert (H1 := length_filter_le (fun i => JS.truthy (depthOf st i))
                    (firstn (Z.to_nat f) (svgShapes st))).
    assert (H2 := firstn_le_length (Z.to_nat f) (svgShapes st)).
    rewrite E. lia. }
  split; [exact Hle |]. split.
  - intros v r Hv.
    assert (Hrow := toSvgIndex_row st v r Hv).
    assert (Hvis : JS.truthy (depthOf st r) = true).
    { destruct (at_index_Some _ _ _ Hv) as [_ Hnth].
      apply nth_error_In in Hnth. now apply In_shownShapes in Hnth. }
    assert (H := Hle _ r Hrow Hvis).
    rewrite (toShownIndex_toSvgIndex st v r Hnd Hv) in H. lia.
  - intros Hall i r Hi.
    assert (Hsame : shownShapes st = svgShapes st).
    { unfold shownShapes. apply forallb_filter_id.
      apply forallb_forall. exact Hall. }
    destruct (at_index_Some _ _ _ Hi) as [Hrange Hnth].
    unfold toShownIndex, toSvgIndex. rewrite Hsame, Hi.
    rewrite (findIndex_identity _ _ _ Hnd Hnth). lia.
Qed.

Lemma visible_index_at_most_full_index_witness :
  0 <= toShownIndex exampleState 2 <= 2 /\
  1 <= toSvgIndex exampleState 1 /\
  toSvgIndex (writeDepth exampleState 1 3%float) 1 = 1.
Proof.
  destruct (visible_index_at_most_full_index exampleState
              (mountSVG_NoDup exampleLoader initial _ None))
    as [Hshown [Hfull _]].
  destruct (visible_index_at_most_full_index
              (writeDepth exampleState 1 3%float)
              (mountSVG_NoDup exampleLoader initial _ None))
    as [_ [_ Hid]].
  split; [apply (Hshown 2 2%nat); reflexivity |].
  split; [apply (Hfull 1 2%nat); reflexivity |].
  apply (Hid
           ltac:(intros r [<- | [<- | [<- | []]]]; reflexivity)
           1 1%nat eq_refl).
Defined.

(** X18. Showing a hidden row: in a list of pairwise distinct objects,
    a truthy depth written to a hidden row [f] puts exactly that shape
    into the visible list, which gets one longer; the row gets the
    visible index that counts the visible rows before it, every visible
    row before it keeps its visible index and every visible row after
    it gets the index one above. *)
Theorem showing_a_row_shifts_later_indices (st : State) (f : Z) (r : ref)
    (d : float) :
  NoDup (svgShapes st) ->
  JS.at_index (svgShapes st) f = Some r ->
  JS.truthy (depthOf st r) = false ->
  JS.truthy d = true ->
  shownShapes st
  = filter (fun x => negb (Nat.eqb x r)) (shownShapes (writeDepth st f d)) /\
  List.length (shownShapes (writeDepth st f d))
  = S (List.length (shownShapes st)) /\
  toShownIndex (writeDepth st f d) f
  = Z.of_nat (List.length (filter (fun i => JS.truthy (depthOf st i))
                             (firstn (Z.to_nat f) (svgShapes st)))) /\
  (forall g rg,
      JS.at_index (svgShapes st) g = Some rg ->
      JS.truthy (depthOf st rg) = true ->
      (g < f -> toShownIndex (writeDepth st f d) g = toShownIndex st g) /\
      (f < g -> toShownIndex (writeDepth st f d) g = toShownIndex st g + 1)).
Proof.
  intros Hnd Hf Hhid Hd.
  destruct (at_index_Some _ _ _ Hf) as [Hrf Hnf].
  assert (Hin : In r (svgShapes st)) by (now apply nth_error_In in Hnf).
  set (p' := fun x => if Nat.eqb x r then JS.truthy d
                      else JS.truthy (depthOf st x)).
  assert (Hp'r : p' r = true) by (unfold p'; now rewrite Nat.eqb_refl).
  assert (Hold : forall l,
            filter (fun x => JS.truthy (depthOf st x)) l
            = filter (fun x => negb (Nat.eqb x r) && p' x) l).
  { intros l. apply filter_ext. intros x. unfold p'.
    destruct (Nat.eqb_spec x r) as [-> | _]; [exact Hhid | reflexivity]. }
  assert (Hnew : forall l,
            filter (fun x => JS.truthy (depthOf (writeDepth st f d) x)) l
            = filter p' l).
  { intros l. apply filter_ext. intros x.
    rewrite (depthOf_writeDepth st f r Hf). unfold p'.
    destruct (Nat.eqb x r); reflexivity. }
  assert (Hl : svgShapes (writeDepth st f d) = svgShapes st)
    by (apply (svgShapes_writeDepth st f r Hf)).
  assert (Hnd' : NoDup (svgShapes (writeDepth st f d)))
    by (now rewrite Hl).
  assert (Hcount : forall g rg,
            JS.at_index (svgShapes st) g = Some rg ->
            JS.truthy (depthOf (writeDepth st f d) rg) = true ->
            toShownIndex (writeDepth st f d) g
            = Z.of_nat (List.length
                (filter p' (firstn (Z.to_nat g) (svgShapes st))))).
  { intros g rg Hg Hvg.
    assert (Hg' : JS.at_index (svgShapes (writeDepth st f d)) g = Some rg)
      by (now rewrite Hl).
    destruct (toShownIndex_visible _ g rg Hnd' Hg' Hvg) as [c [Hc [_ E]]].
    now rewrite E, Hc, Hl, Hnew. }
  assert (Hbefore : forall g, (g <= Z.to_nat f)%nat ->
            filter p' (firstn g (svgShapes st))
            = filter (fun x => JS.truthy (depthOf st x))
                (firstn g (svgShapes st))).
  { intros g Hg. apply filter_ext_in. intros x Hx. unfold p'.
    destruct (Nat.eqb_spec x r) as [-> | _]; [| reflexivity].
    exfalso. revert Hx.
    now apply (NoDup_firstn_not_In _ (Z.to_nat f) _ _ Hnd Hnf). }
  split; [| split; [| split]].
  - unfold shownShapes at 2. rewrite Hl, Hnew, filter_both.
    unfold shownShapes. apply Hold.
  - unfold shownShapes. rewrite Hl, Hnew, Hold.
    symmetry. now apply filter_without_one.
  - rewrite (Hcount f r Hf).
    + now rewrite Hbefore by lia.
    + rewrite (depthOf_writeDepth st f r Hf), Nat.eqb_refl. exact Hd.
  - intros g rg Hg Hvg. destruct (at_index_Some _ _ _ Hg) as [Hrg Hng].
    assert (Hne : rg <> r) by (intros ->; congruence).
    assert (Hvg' : JS.truthy (depthOf (writeDepth st f d) rg) = true).
    { rewrite (depthOf_writeDepth st f r Hf).
      destruct (Nat.eqb_spec rg r); [contradiction | exact Hvg]. }
    destruct (toShownIndex_visible st g rg Hnd Hg Hvg) as [c [Hc [_ E]]].
    rewrite (Hcount g rg Hg Hvg'), E, Hc. split; intros Hlt.
    + now rewrite Hbefore by lia.
    + assert (Hfg : (Z.to_nat f < Z.to_nat g)%nat) by lia.
      assert (Hone := filter_without_one p'
                (firstn (Z.to_nat g) (svgShapes st)) r
                (NoDup_firstn _ _ Hnd)
                (nth_error_firstn_In _ (Z.to_nat f) _ _ Hnf Hfg) Hp'r).
      rewrite <- Hold in Hone. unfold ref in *. lia.
Qed.

Lemma showing_a_row_shifts_later_indices_witness :
  toShownIndex (writeDepth exampleState 1 3%float) 1 = 1 /\
  toShownIndex (writeDepth exampleState 1 3%float) 2
  = toShownIndex exampleState 2 + 1.
Proof.
  destruct (showing_a_row_shifts_later_indices exampleState 1 1%nat 3%float
              (mountSVG_NoDup exampleLoader initial _ None)
              eq_refl eq_refl eq_refl) as [_ [_ [Hself Hothers]]].
  split; [exact Hself |].
  apply (proj2 (Hothers 2 2%nat eq_refl eq_refl)). reflexivity.
Defined.
